(** * The metric catalog of heapster's [metrics/core] package

    A shallow embedding of [metrics/core/metrics.go]: the metric
    descriptors, the grouped registries, the scalar and labeled extractors
    and the lookups, followed by the properties proved about them. *)

From Stdlib Require Import ZArith DecimalString.
From stdpp Require Import base list strings gmap.

Local Open Scope Z_scope.

(** ** Go's machine integers and the two library packages the file imports *)

Module Go.
(** The conversion [int64(x)]: the low 64 bits of [x], read in two's
  complement. An unsigned 64-bit field is a [Z] in [0, 2^64). *)
Definition int64 (x : Z) : Z := (x + 2 ^ 63) `mod` 2 ^ 64 - 2 ^ 63.

(** [a += b] on two [int64] values wraps around. *)
Definition add64 (a b : Z) : Z := int64 (a + b).
End Go.

Module fmt.
(** The verb [%d] on an unsigned integer: its decimal digits. *)
Definition verb_d (x : Z) : string :=
  NilEmpty.string_of_uint (N.to_uint (Z.to_N x)).

(** [fmt.Sprintf("%d:%d", a, b)]. *)
Definition Sprintf_d_colon_d (a b : Z) : string :=
  verb_d a +:+ ":" +:+ verb_d b.
End fmt.

Module time.
(** A [time.Time] is kept as the number of nanoseconds since the zero
  time (January 1, year 1, 00:00:00 UTC); a [time.Duration] is an
  [int64] count of nanoseconds. *)
Definition Time : Type := Z.
Definition Duration : Type := Z.

Definition minDuration : Duration := - 2 ^ 63.
Definition maxDuration : Duration := 2 ^ 63 - 1.

Definition IsZero (t : Time) : bool := t =? 0.

(** [t.Sub(u)] saturates at the smallest and the largest duration. *)
Definition Sub (t u : Time) : Duration :=
  if t - u <? minDuration then minDuration
  else if maxDuration <? t - u then maxDuration
  else t - u.

(** [time.Since(t)] is [time.Now().Sub(t)]; the reading of the clock is
  the argument [now]. *)
Definition Since (now t : Time) : Duration := Sub now t.

Definition Nanoseconds (d : Duration) : Z := d.
Definition Millisecond : Duration := 1000000.
End time.

(** ** The cadvisor records, with the fields the extractors read *)

Module cadvisor.
Module ContainerSpec.
Record t := mk {
  CreationTime : time.Time;
  HasCpu : bool;
  HasMemory : bool;
  HasNetwork : bool;
  HasFilesystem : bool;
  HasDiskIo : bool }.
End ContainerSpec.

Module CpuUsage.
Record t := mk { Total : Z }.
End CpuUsage.

Module CpuStats.
Record t := mk { Usage : CpuUsage.t }.
End CpuStats.

Module MemoryStatsMemoryData.
Record t := mk { Pgfault : Z; Pgmajfault : Z }.
End MemoryStatsMemoryData.

Module MemoryStats.
Record t := mk {
  Usage : Z;
  Cache : Z;
  RSS : Z;
  WorkingSet : Z;
  ContainerData : MemoryStatsMemoryData.t }.
End MemoryStats.

Module InterfaceStats.
Record t := mk {
  RxBytes : Z;
  RxErrors : Z;
  TxBytes : Z;
  TxErrors : Z }.
End InterfaceStats.

Module NetworkStats.
Record t := mk { Interfaces : list InterfaceStats.t }.
End NetworkStats.

Module FsStats.
Record t := mk {
  Device : string;
  Limit : Z;
  Usage : Z;
  HasInodes : bool;
  Inodes : Z;
  InodesFree : Z }.
End FsStats.

Module PerDiskStats.
Record t := mk {
  Device : string;
  Major : Z;
  Minor : Z;
  Stats : gmap string Z }.
End PerDiskStats.

Module DiskIoStats.
Record t := mk { IoServiceBytes : list PerDiskStats.t }.
End DiskIoStats.

Module AcceleratorStats.
Record t := mk {
  Make : string;
  Model : string;
  ID : string;
  MemoryTotal : Z;
  MemoryUsed : Z;
  DutyCycle : Z }.
End AcceleratorStats.

Module ContainerStats.
Record t := mk {
  Cpu : CpuStats.t;
  Memory : MemoryStats.t;
  Network : NetworkStats.t;
  Filesystem : list FsStats.t;
  DiskIo : DiskIoStats.t;
  Accelerators : list AcceleratorStats.t }.
End ContainerStats.

(** Modelled from the spec: besides [Spec], which [MetricUptime] reads,
    an entity carries the entity-kind flag (individual or aggregate)
    that [metrics.IsNode] answers from. *)
Module ContainerInfo.
Record t := mk {
  Spec : ContainerSpec.t;
  Aggregate : bool }.
End ContainerInfo.
End cadvisor.

Module metrics.
(** Modelled from the spec: [IsNode] belongs to the package
    [k8s.io/heapster/metrics/util/metrics], outside [metrics.go]; it
    tells whether the entity is an aggregate (a node) rather than an
    individual unit. *)
Definition IsNode (c : cadvisor.ContainerInfo.t) : bool :=
  cadvisor.ContainerInfo.Aggregate c.
End metrics.

(** ** The types of the package that are declared next to [metrics.go] *)

(** Modelled from the spec: the kind of a metric, [Cumulative] or [Gauge];
    [MetricType] is declared outside [metrics.go]. *)
Inductive MetricType := MetricCumulative | MetricGauge.

(** Modelled from the spec: the numeric representation, [Int64] or
    [Float]; [ValueType] is declared outside [metrics.go]. *)
Inductive ValueType := ValueInt64 | ValueFloat.

(** Modelled from the spec: the units [Bytes], [Milliseconds],
    [Nanoseconds] and [Count]; [UnitsType] is declared outside
    [metrics.go]. *)
Inductive UnitsType :=
  UnitsBytes | UnitsMilliseconds | UnitsNanoseconds | UnitsCount.

(** Modelled from the spec: a label descriptor is a pair of a key and a
    description; the type is declared outside [metrics.go]. *)
Module LabelDescriptor.
Record t := mk { Key : string; Description : string }.
End LabelDescriptor.

(** Modelled from the spec: a metric value is
    [{valueType, kind, intValue, floatValue}]; the type is declared
    outside [metrics.go]. [FloatValue] is kept as the bit pattern of the
    float, which every extractor of this file leaves at the zero value. *)
Module MetricValue.
Record t := mk {
  IntValue : Z;
  FloatValue : Z;
  MetricType : MetricType;
  ValueType : ValueType }.
End MetricValue.

(** Modelled from the spec: a labeled metric is
    [{metricName, labels, value}], the labels a map from label key to
    string; the type is declared outside [metrics.go]. *)
Module LabeledMetric.
Record t := mk {
  Name : string;
  Labels : gmap string string;
  MetricValue : MetricValue.t }.
End LabeledMetric.

(** The label descriptors and the label tables that [metrics.go] refers
    to are declared in another file of the package: they are parameters
    of the catalog. *)
Class LabelDeclarations := {
  LabelResourceID : LabelDescriptor.t;
  LabelAcceleratorMake : LabelDescriptor.t;
  LabelAcceleratorModel : LabelDescriptor.t;
  LabelAcceleratorID : LabelDescriptor.t;
  metricLabels : list LabelDescriptor.t;
  acceleratorLabels : list LabelDescriptor.t;
  acceleratorCapacityLabels : list LabelDescriptor.t }.

Module MetricDescriptor.
Record t := mk {
  Name : string;
  Description : string;
  Labels : list LabelDescriptor.t;
  Type_ : MetricType;
  ValueType : ValueType;
  Units : UnitsType }.
End MetricDescriptor.

(** A function-valued field is [None] where the Go literal leaves it nil.
    The two extractors take, before the arguments of the Go function, the
    reading [now] of the wall clock at the call: it is the only state
    outside their arguments that a closure of this file reads. *)
Module Metric.
Record t := mk {
  MetricDescriptor : MetricDescriptor.t;
  HasValue : option (cadvisor.ContainerSpec.t → bool);
  GetValue :
    option (time.Time → cadvisor.ContainerInfo.t →
            cadvisor.ContainerStats.t → MetricValue.t);
  HasLabeledMetric :
    option (cadvisor.ContainerSpec.t → cadvisor.ContainerStats.t → bool);
  GetLabeledMetric :
    option (time.Time → cadvisor.ContainerInfo.t →
            cadvisor.ContainerStats.t → list LabeledMetric.t) }.

(** The fields of the embedded descriptor are promoted. *)
Definition Name (m : t) : string :=
  MetricDescriptor.Name (MetricDescriptor m).
Definition Type_ (m : t) : MetricType :=
  MetricDescriptor.Type_ (MetricDescriptor m).

(** Calling a function-valued field; calling a nil one panics, which is
    [None]. *)
Definition callGetValue (m : t) (now : time.Time)
    (c : cadvisor.ContainerInfo.t) (stat : cadvisor.ContainerStats.t)
    : option MetricValue.t :=
  f ← GetValue m; Some (f now c stat).

Definition callGetLabeledMetric (m : t) (now : time.Time)
    (c : cadvisor.ContainerInfo.t) (stat : cadvisor.ContainerStats.t)
    : option (list LabeledMetric.t) :=
  f ← GetLabeledMetric m; Some (f now c stat).
End Metric.

Import cadvisor.
Local Open Scope string_scope.
Local Open Scope list_scope.

(** The literal [Metric{MetricDescriptor: d}] leaves the four function
    fields nil. *)
Definition descriptorOnly (d : MetricDescriptor.t) : Metric.t :=
  {| Metric.MetricDescriptor := d;
     Metric.HasValue := None;
     Metric.GetValue := None;
     Metric.HasLabeledMetric := None;
     Metric.GetLabeledMetric := None |}.

(** The assignment [metricValue.IntValue = x]. *)
Definition setIntValue (v : MetricValue.t) (x : Z) : MetricValue.t :=
  {| MetricValue.IntValue := x;
     MetricValue.FloatValue := MetricValue.FloatValue v;
     MetricValue.MetricType := MetricValue.MetricType v;
     MetricValue.ValueType := MetricValue.ValueType v |}.

Definition CustomMetricPrefix : string := "custom/".

(** ** Definition of the standard metrics *)

Definition MetricUptime : Metric.t :=
  {| Metric.MetricDescriptor :=
       {| MetricDescriptor.Name := "uptime";
          MetricDescriptor.Description :=
            "Number of milliseconds since the container was started";
          MetricDescriptor.Labels := [];
          MetricDescriptor.Type_ := MetricCumulative;
          MetricDescriptor.ValueType := ValueInt64;
          MetricDescriptor.Units := UnitsMilliseconds |};
     Metric.HasValue :=
       Some (λ spec, negb (time.IsZero (ContainerSpec.CreationTime spec)));
     Metric.GetValue :=
       Some (λ now c stat,
         {| MetricValue.ValueType := ValueInt64;
            MetricValue.MetricType := MetricCumulative;
            MetricValue.FloatValue := 0;
            MetricValue.IntValue :=
              time.Nanoseconds
                (time.Since now
                   (ContainerSpec.CreationTime (ContainerInfo.Spec c)))
              `quot` time.Nanoseconds time.Millisecond |});
     Metric.HasLabeledMetric := None;
     Metric.GetLabeledMetric := None |}.

Definition MetricCpuUsage : Metric.t :=
  {| Metric.MetricDescriptor :=
       {| MetricDescriptor.Name := "cpu/usage";
          MetricDescriptor.Description := "Cumulative CPU usage on all cores";
          MetricDescriptor.Labels := [];
          MetricDescriptor.Type_ := MetricCumulative;
          MetricDescriptor.ValueType := ValueInt64;
          MetricDescriptor.Units := UnitsNanoseconds |};
     Metric.HasValue := Some (λ spec, ContainerSpec.HasCpu spec);
     Metric.GetValue :=
       Some (λ now c stat,
         let metricValue :=
           {| MetricValue.ValueType := ValueInt64;
              MetricValue.MetricType := MetricCumulative;
              MetricValue.FloatValue := 0;
              MetricValue.IntValue := 0 |} in
         if negb (metrics.IsNode c)
         then setIntValue metricValue
                (Go.int64 (CpuUsage.Total (CpuStats.Usage (ContainerStats.Cpu stat))))
         else metricValue);
     Metric.HasLabeledMetric := None;
     Metric.GetLabeledMetric := None |}.

Definition MetricMemoryUsage : Metric.t :=
  {| Metric.MetricDescriptor :=
       {| MetricDescriptor.Name := "memory/usage";
          MetricDescriptor.Description := "Memory usage";
          MetricDescriptor.Labels := [];
          MetricDescriptor.Type_ := MetricGauge;
          MetricDescriptor.ValueType := ValueInt64;
          MetricDescriptor.Units := UnitsBytes |};
     Metric.HasValue := Some (λ spec, ContainerSpec.HasMemory spec);
     Metric.GetValue :=
       Some (λ now c stat,
         let metricValue :=
           {| MetricValue.ValueType := ValueInt64;
              MetricValue.MetricType := MetricGauge;
              MetricValue.FloatValue := 0;
              MetricValue.IntValue := 0 |} in
         if negb (metrics.IsNode c)
         then setIntValue metricValue
                (Go.int64 (MemoryStats.Usage (ContainerStats.Memory stat)))
         else metricValue);
     Metric.HasLabeledMetric := None;
     Metric.GetLabeledMetric := None |}.

Definition MetricMemoryCache : Metric.t :=
  {| Metric.MetricDescriptor :=
       {| MetricDescriptor.Name := "memory/cache";
          MetricDescriptor.Description := "Cache memory";
          MetricDescriptor.Labels := [];
          MetricDescriptor.Type_ := MetricGauge;
          MetricDescriptor.ValueType := ValueInt64;
          MetricDescriptor.Units := UnitsBytes |};
     Metric.HasValue := Some (λ spec, ContainerSpec.HasMemory spec);
     Metric.GetValue :=
       Some (λ now c stat,
         let metricValue :=
           {| MetricValue.ValueType := ValueInt64;
              MetricValue.MetricType := MetricGauge;
              MetricValue.FloatValue := 0;
              MetricValue.IntValue := 0 |} in
         if negb (metrics.IsNode c)
         then setIntValue metricValue
                (Go.int64 (MemoryStats.Cache (ContainerStats.Memory stat)))
         else metricValue);
     Metric.HasLabeledMetric := None;
     Metric.GetLabeledMetric := None |}.

Definition MetricMemoryRSS : Metric.t :=
  {| Metric.MetricDescriptor :=
       {| MetricDescriptor.Name := "memory/rss";
          MetricDescriptor.Description := "RSS memory";
          MetricDescriptor.Labels := [];
          MetricDescriptor.Type_ := MetricGauge;
          MetricDescriptor.ValueType := ValueInt64;
          MetricDescriptor.Units := UnitsBytes |};
     Metric.HasValue := Some (λ spec, ContainerSpec.HasMemory spec);
     Metric.GetValue :=
       Some (λ now c stat,
         let metricValue :=
           {| MetricValue.ValueType := ValueInt64;
              MetricValue.MetricType := MetricGauge;
              MetricValue.FloatValue := 0;
              MetricValue.IntValue := 0 |} in
         if negb (metrics.IsNode c)
         then setIntValue metricValue
                (Go.int64 (MemoryStats.RSS (ContainerStats.Memory stat)))
         else metricValue);
     Metric.HasLabeledMetric := None;
     Metric.GetLabeledMetric := None |}.

Definition MetricMemoryWorkingSet : Metric.t :=
  {| Metric.MetricDescriptor :=
       {| MetricDescriptor.Name := "memory/working_set";
          MetricDescriptor.Description :=
            "Working set memory. Working set is the memory being used and not easily dropped by the kernel";
          MetricDescriptor.Labels := [];
          MetricDescriptor.Type_ := MetricGauge;
          MetricDescriptor.ValueType := ValueInt64;
          MetricDescriptor.Units := UnitsBytes |};
     Metric.HasValue := Some (λ spec, ContainerSpec.HasMemory spec);
     Metric.GetValue :=
       Some (λ now c stat,
         let metricValue :=
           {| MetricValue.ValueType := ValueInt64;
              MetricValue.MetricType := MetricGauge;
              MetricValue.FloatValue := 0;
              MetricValue.IntValue := 0 |} in
         if negb (metrics.IsNode c)
         then setIntValue metricValue
                (Go.int64 (MemoryStats.WorkingSet (ContainerStats.Memory stat)))
         else metricValue);
     Metric.HasLabeledMetric := None;
     Metric.GetLabeledMetric := None |}.

Definition MetricMemoryPageFaults : Metric.t :=
  {| Metric.MetricDescriptor :=
       {| MetricDescriptor.Name := "memory/page_faults";
          MetricDescriptor.Description := "Number of page faults";
          MetricDescriptor.Labels := [];
          MetricDescriptor.Type_ := MetricCumulative;
          MetricDescriptor.ValueType := ValueInt64;
          MetricDescriptor.Units := UnitsCount |};
     Metric.HasValue := Some (λ spec, ContainerSpec.HasMemory spec);
     Metric.GetValue :=
       Some (λ now c stat,
         let metricValue :=
           {| MetricValue.ValueType := ValueInt64;
              MetricValue.MetricType := MetricCumulative;
              MetricValue.FloatValue := 0;
              MetricValue.IntValue := 0 |} in
         if negb (metrics.IsNode c)
         then setIntValue metricValue
                (Go.int64 (MemoryStatsMemoryData.Pgfault
                   (MemoryStats.ContainerData (ContainerStats.Memory stat))))
         else metricValue);
     Metric.HasLabeledMetric := None;
     Metric.GetLabeledMetric := None |}.

Definition MetricMemoryMajorPageFaults : Metric.t :=
  {| Metric.MetricDescriptor :=
       {| MetricDescriptor.Name := "memory/major_page_faults";
          MetricDescriptor.Description := "Number of major page faults";
          MetricDescriptor.Labels := [];
          MetricDescriptor.Type_ := MetricCumulative;
          MetricDescriptor.ValueType := ValueInt64;
          MetricDescriptor.Units := UnitsCount |};
     Metric.HasValue := Some (λ spec, ContainerSpec.HasMemory spec);
     Metric.GetValue :=
       Some (λ now c stat,
         let metricValue :=
           {| MetricValue.ValueType := ValueInt64;
              MetricValue.MetricType := MetricCumulative;
              MetricValue.FloatValue := 0;
              MetricValue.IntValue := 0 |} in
         if negb (metrics.IsNode c)
         then setIntValue metricValue
                (Go.int64 (MemoryStatsMemoryData.Pgmajfault
                   (MemoryStats.ContainerData (ContainerStats.Memory stat))))
         else metricValue);
     Metric.HasLabeledMetric := None;
     Metric.GetLabeledMetric := None |}.

(** The loop [for _, interfaceStat := range ifs { total += int64(field) }],
    from [var total int64 = 0]. *)
Definition sumInterfaces (field : InterfaceStats.t → Z)
    (ifs : list InterfaceStats.t) : Z :=
  foldl (λ total interfaceStat, Go.add64 total (Go.int64 (field interfaceStat)))
    0 ifs.

Definition MetricNetworkRx : Metric.t :=
  {| Metric.MetricDescriptor :=
       {| MetricDescriptor.Name := "network/rx";
          MetricDescriptor.Description :=
            "Cumulative number of bytes received over the network";
          MetricDescriptor.Labels := [];
          MetricDescriptor.Type_ := MetricCumulative;
          MetricDescriptor.ValueType := ValueInt64;
          MetricDescriptor.Units := UnitsBytes |};
     Metric.HasValue := Some (λ spec, ContainerSpec.HasNetwork spec);
     Metric.GetValue :=
       Some (λ now c stat,
         let rxBytes :=
           sumInterfaces InterfaceStats.RxBytes
             (NetworkStats.Interfaces (ContainerStats.Network stat)) in
         let metricValue :=
           {| MetricValue.ValueType := ValueInt64;
              MetricValue.MetricType := MetricCumulative;
              MetricValue.FloatValue := 0;
              MetricValue.IntValue := 0 |} in
         if negb (metrics.IsNode c)
         then setIntValue metricValue rxBytes
         else metricValue);
     Metric.HasLabeledMetric := None;
     Metric.GetLabeledMetric := None |}.

Definition MetricNetworkRxErrors : Metric.t :=
  {| Metric.MetricDescriptor :=
       {| MetricDescriptor.Name := "network/rx_errors";
          MetricDescriptor.Description :=
            "Cumulative number of errors while receiving over the network";
          MetricDescriptor.Labels := [];
          MetricDescriptor.Type_ := MetricCumulative;
          MetricDescriptor.ValueType := ValueInt64;
          MetricDescriptor.Units := UnitsCount |};
     Metric.HasValue := Some (λ spec, ContainerSpec.HasNetwork spec);
     Metric.GetValue :=
       Some (λ now c stat,
         let rxErrors :=
           sumInterfaces InterfaceStats.RxErrors
             (NetworkStats.Interfaces (ContainerStats.Network stat)) in
         let metricValue :=
           {| MetricValue.ValueType := ValueInt64;
              MetricValue.MetricType := MetricCumulative;
              MetricValue.FloatValue := 0;
              MetricValue.IntValue := 0 |} in
         if negb (metrics.IsNode c)
         then setIntValue metricValue rxErrors
         else metricValue);
     Metric.HasLabeledMetric := None;
     Metric.GetLabeledMetric := None |}.

Definition MetricNetworkTx : Metric.t :=
  {| Metric.MetricDescriptor :=
       {| MetricDescriptor.Name := "network/tx";
          MetricDescriptor.Description :=
            "Cumulative number of bytes sent over the network";
          MetricDescriptor.Labels := [];
          MetricDescriptor.Type_ := MetricCumulative;
          MetricDescriptor.ValueType := ValueInt64;
          MetricDescriptor.Units := UnitsBytes |};
     Metric.HasValue := Some (λ spec, ContainerSpec.HasNetwork spec);
     Metric.GetValue :=
       Some (λ now c stat,
         let txBytes :=
           sumInterfaces InterfaceStats.TxBytes
             (NetworkStats.Interfaces (ContainerStats.Network stat)) in
         let metricValue :=
           {| MetricValue.ValueType := ValueInt64;
              MetricValue.MetricType := MetricCumulative;
              MetricValue.FloatValue := 0;
              MetricValue.IntValue := 0 |} in
         if negb (metrics.IsNode c)
         then setIntValue metricValue txBytes
         else metricValue);
     Metric.HasLabeledMetric := None;
     Metric.GetLabeledMetric := None |}.

Definition MetricNetworkTxErrors : Metric.t :=
  {| Metric.MetricDescriptor :=
       {| MetricDescriptor.Name := "network/tx_errors";
          MetricDescriptor.Description :=
            "Cumulative number of errors while sending over the network";
          MetricDescriptor.Labels := [];
          MetricDescriptor.Type_ := MetricCumulative;
          MetricDescriptor.ValueType := ValueInt64;
          MetricDescriptor.Units := UnitsCount |};
     Metric.HasValue := Some (λ spec, ContainerSpec.HasNetwork spec);
     Metric.GetValue :=
       Some (λ now c stat,
         let txErrors :=
           sumInterfaces InterfaceStats.TxErrors
             (NetworkStats.Interfaces (ContainerStats.Network stat)) in
         let metricValue :=
           {| MetricValue.ValueType := ValueInt64;
              MetricValue.MetricType := MetricCumulative;
              MetricValue.FloatValue := 0;
              MetricValue.IntValue := 0 |} in
         if negb (metrics.IsNode c)
         then setIntValue metricValue txErrors
         else metricValue);
     Metric.HasLabeledMetric := None;
     Metric.GetLabeledMetric := None |}.

(** ** Definition of the additional metrics *)

Definition MetricCpuRequest : Metric.t :=
  descriptorOnly
    {| MetricDescriptor.Name := "cpu/request";
       MetricDescriptor.Description :=
         "CPU request (the guaranteed amount of resources) in millicores. This metric is Kubernetes specific.";
       MetricDescriptor.Labels := [];
       MetricDescriptor.Type_ := MetricGauge;
       MetricDescriptor.ValueType := ValueInt64;
       MetricDescriptor.Units := UnitsCount |}.

Definition MetricCpuLimit : Metric.t :=
  descriptorOnly
    {| MetricDescriptor.Name := "cpu/limit";
       MetricDescriptor.Description := "CPU hard limit in millicores.";
       MetricDescriptor.Labels := [];
       MetricDescriptor.Type_ := MetricGauge;
       MetricDescriptor.ValueType := ValueInt64;
       MetricDescriptor.Units := UnitsCount |}.

Definition MetricMemoryRequest : Metric.t :=
  descriptorOnly
    {| MetricDescriptor.Name := "memory/request";
       MetricDescriptor.Description :=
         "Memory request (the guaranteed amount of resources) in bytes. This metric is Kubernetes specific.";
       MetricDescriptor.Labels := [];
       MetricDescriptor.Type_ := MetricGauge;
       MetricDescriptor.ValueType := ValueInt64;
       MetricDescriptor.Units := UnitsBytes |}.

Definition MetricMemoryLimit : Metric.t :=
  descriptorOnly
    {| MetricDescriptor.Name := "memory/limit";
       MetricDescriptor.Description := "Memory hard limit in bytes.";
       MetricDescriptor.Labels := [];
       MetricDescriptor.Type_ := MetricGauge;
       MetricDescriptor.ValueType := ValueInt64;
       MetricDescriptor.Units := UnitsBytes |}.

(** ** Definition of the rate metrics *)

Definition MetricCpuUsageRate : Metric.t :=
  descriptorOnly
    {| MetricDescriptor.Name := "cpu/usage_rate";
       MetricDescriptor.Description := "CPU usage on all cores in millicores";
       MetricDescriptor.Labels := [];
       MetricDescriptor.Type_ := MetricGauge;
       MetricDescriptor.ValueType := ValueInt64;
       MetricDescriptor.Units := UnitsCount |}.

Definition MetricMemoryPageFaultsRate : Metric.t :=
  descriptorOnly
    {| MetricDescriptor.Name := "memory/page_faults_rate";
       MetricDescriptor.Description := "Rate of page faults in counts per second";
       MetricDescriptor.Labels := [];
       MetricDescriptor.Type_ := MetricGauge;
       MetricDescriptor.ValueType := ValueFloat;
       MetricDescriptor.Units := UnitsCount |}.

Definition MetricMemoryMajorPageFaultsRate : Metric.t :=
  descriptorOnly
    {| MetricDescriptor.Name := "memory/major_page_faults_rate";
       MetricDescriptor.Description :=
         "Rate of major page faults in counts per second";
       MetricDescriptor.Labels := [];
       MetricDescriptor.Type_ := MetricGauge;
       MetricDescriptor.ValueType := ValueFloat;
       MetricDescriptor.Units := UnitsCount |}.

Definition MetricNetworkRxRate : Metric.t :=
  descriptorOnly
    {| MetricDescriptor.Name := "network/rx_rate";
       MetricDescriptor.Description :=
         "Rate of bytes received over the network in bytes per second";
       MetricDescriptor.Labels := [];
       MetricDescriptor.Type_ := MetricGauge;
       MetricDescriptor.ValueType := ValueFloat;
       MetricDescriptor.Units := UnitsCount |}.

Definition MetricNetworkRxErrorsRate : Metric.t :=
  descriptorOnly
    {| MetricDescriptor.Name := "network/rx_errors_rate";
       MetricDescriptor.Description :=
         "Rate of errors sending over the network in errors per second";
       MetricDescriptor.Labels := [];
       MetricDescriptor.Type_ := MetricGauge;
       MetricDescriptor.ValueType := ValueFloat;
       MetricDescriptor.Units := UnitsCount |}.

Definition MetricNetworkTxRate : Metric.t :=
  descriptorOnly
    {| MetricDescriptor.Name := "network/tx_rate";
       MetricDescriptor.Description :=
         "Rate of bytes transmitted over the network in bytes per second";
       MetricDescriptor.Labels := [];
       MetricDescriptor.Type_ := MetricGauge;
       MetricDescriptor.ValueType := ValueFloat;
       MetricDescriptor.Units := UnitsCount |}.

Definition MetricNetworkTxErrorsRate : Metric.t :=
  descriptorOnly
    {| MetricDescriptor.Name := "network/tx_errors_rate";
       MetricDescriptor.Description :=
         "Rate of errors transmitting over the network in errors per second";
       MetricDescriptor.Labels := [];
       MetricDescriptor.Type_ := MetricGauge;
       MetricDescriptor.ValueType := ValueFloat;
       MetricDescriptor.Units := UnitsCount |}.

(** ** The node metrics *)

Definition MetricNodeCpuCapacity : Metric.t :=
  descriptorOnly
    {| MetricDescriptor.Name := "cpu/node_capacity";
       MetricDescriptor.Description := "Cpu capacity of a node";
       MetricDescriptor.Labels := [];
       MetricDescriptor.Type_ := MetricGauge;
       MetricDescriptor.ValueType := ValueFloat;
       MetricDescriptor.Units := UnitsCount |}.

Definition MetricNodeMemoryCapacity : Metric.t :=
  descriptorOnly
    {| MetricDescriptor.Name := "memory/node_capacity";
       MetricDescriptor.Description := "Memory capacity of a node";
       MetricDescriptor.Labels := [];
       MetricDescriptor.Type_ := MetricGauge;
       MetricDescriptor.ValueType := ValueFloat;
       MetricDescriptor.Units := UnitsCount |}.

Definition MetricNodeCpuAllocatable : Metric.t :=
  descriptorOnly
    {| MetricDescriptor.Name := "cpu/node_allocatable";
       MetricDescriptor.Description := "Cpu allocatable of a node";
       MetricDescriptor.Labels := [];
       MetricDescriptor.Type_ := MetricGauge;
       MetricDescriptor.ValueType := ValueFloat;
       MetricDescriptor.Units := UnitsCount |}.

Definition MetricNodeMemoryAllocatable : Metric.t :=
  descriptorOnly
    {| MetricDescriptor.Name := "memory/node_allocatable";
       MetricDescriptor.Description := "Memory allocatable of a node";
       MetricDescriptor.Labels := [];
       MetricDescriptor.Type_ := MetricGauge;
       MetricDescriptor.ValueType := ValueFloat;
       MetricDescriptor.Units := UnitsCount |}.

Definition MetricNodeCpuUtilization : Metric.t :=
  descriptorOnly
    {| MetricDescriptor.Name := "cpu/node_utilization";
       MetricDescriptor.Description :=
         "Cpu utilization as a share of node capacity";
       MetricDescriptor.Labels := [];
       MetricDescriptor.Type_ := MetricGauge;
       MetricDescriptor.ValueType := ValueFloat;
       MetricDescriptor.Units := UnitsCount |}.

Definition MetricNodeMemoryUtilization : Metric.t :=
  descriptorOnly
    {| MetricDescriptor.Name := "memory/node_utilization";
       MetricDescriptor.Description :=
         "Memory utilization as a share of memory capacity";
       MetricDescriptor.Labels := [];
       MetricDescriptor.Type_ := MetricGauge;
       MetricDescriptor.ValueType := ValueFloat;
       MetricDescriptor.Units := UnitsCount |}.

Definition MetricNodeCpuReservation : Metric.t :=
  descriptorOnly
    {| MetricDescriptor.Name := "cpu/node_reservation";
       MetricDescriptor.Description :=
         "Share of cpu that is reserved on the node";
       MetricDescriptor.Labels := [];
       MetricDescriptor.Type_ := MetricGauge;
       MetricDescriptor.ValueType := ValueFloat;
       MetricDescriptor.Units := UnitsCount |}.

Definition MetricNodeMemoryReservation : Metric.t :=
  descriptorOnly
    {| MetricDescriptor.Name := "memory/node_reservation";
       MetricDescriptor.Description :=
         "Share of memory that is reserved on the node";
       MetricDescriptor.Labels := [];
       MetricDescriptor.Type_ := MetricGauge;
       MetricDescriptor.ValueType := ValueFloat;
       MetricDescriptor.Units := UnitsCount |}.

Section Catalog.
Context {labels : LabelDeclarations}.

(** ** The labeled metrics *)

Definition MetricFilesystemUsage : Metric.t :=
  {| Metric.MetricDescriptor :=
       {| MetricDescriptor.Name := "filesystem/usage";
          MetricDescriptor.Description :=
            "Total number of bytes consumed on a filesystem";
          MetricDescriptor.Type_ := MetricGauge;
          MetricDescriptor.ValueType := ValueInt64;
          MetricDescriptor.Units := UnitsBytes;
          MetricDescriptor.Labels := metricLabels |};
     Metric.HasValue := None;
     Metric.GetValue := None;
     Metric.HasLabeledMetric :=
       Some (λ spec stat, ContainerSpec.HasFilesystem spec);
     Metric.GetLabeledMetric :=
       Some (λ now c stat,
         foldl (λ result fs,
           result ++
           [ {| LabeledMetric.Name := "filesystem/usage";
                LabeledMetric.Labels :=
                  {[ LabelDescriptor.Key LabelResourceID := FsStats.Device fs ]};
                LabeledMetric.MetricValue :=
                  {| MetricValue.ValueType := ValueInt64;
                     MetricValue.MetricType := MetricGauge;
                     MetricValue.FloatValue := 0;
                     MetricValue.IntValue := Go.int64 (FsStats.Usage fs) |} |} ])
           [] (ContainerStats.Filesystem stat)) |}.

Definition MetricFilesystemLimit : Metric.t :=
  {| Metric.MetricDescriptor :=
       {| MetricDescriptor.Name := "filesystem/limit";
          MetricDescriptor.Description :=
            "The total size of filesystem in bytes";
          MetricDescriptor.Type_ := MetricGauge;
          MetricDescriptor.ValueType := ValueInt64;
          MetricDescriptor.Units := UnitsBytes;
          MetricDescriptor.Labels := metricLabels |};
     Metric.HasValue := None;
     Metric.GetValue := None;
     Metric.HasLabeledMetric :=
       Some (λ spec stat, ContainerSpec.HasFilesystem spec);
     Metric.GetLabeledMetric :=
       Some (λ now c stat,
         foldl (λ result fs,
           result ++
           [ {| LabeledMetric.Name := "filesystem/limit";
                LabeledMetric.Labels :=
                  {[ LabelDescriptor.Key LabelResourceID := FsStats.Device fs ]};
                LabeledMetric.MetricValue :=
                  {| MetricValue.ValueType := ValueInt64;
                     MetricValue.MetricType := MetricGauge;
                     MetricValue.FloatValue := 0;
                     MetricValue.IntValue := Go.int64 (FsStats.Limit fs) |} |} ])
           [] (ContainerStats.Filesystem stat)) |}.

Definition MetricFilesystemAvailable : Metric.t :=
  descriptorOnly
    {| MetricDescriptor.Name := "filesystem/available";
       MetricDescriptor.Description :=
         "The number of available bytes remaining in a the filesystem";
       MetricDescriptor.Type_ := MetricGauge;
       MetricDescriptor.ValueType := ValueInt64;
       MetricDescriptor.Units := UnitsBytes;
       MetricDescriptor.Labels := metricLabels |}.

Definition MetricFilesystemInodes : Metric.t :=
  {| Metric.MetricDescriptor :=
       {| MetricDescriptor.Name := "filesystem/inodes";
          MetricDescriptor.Description :=
            "Total number of inodes on a filesystem";
          MetricDescriptor.Type_ := MetricGauge;
          MetricDescriptor.ValueType := ValueInt64;
          MetricDescriptor.Units := UnitsBytes;
          MetricDescriptor.Labels := metricLabels |};
     Metric.HasValue := None;
     Metric.GetValue := None;
     Metric.HasLabeledMetric :=
       Some (λ spec stat, ContainerSpec.HasFilesystem spec);
     Metric.GetLabeledMetric :=
       Some (λ now c stat,
         foldl (λ result fs,
           if FsStats.HasInodes fs
           then
             result ++
             [ {| LabeledMetric.Name := "filesystem/inodes";
                  LabeledMetric.Labels :=
                    {[ LabelDescriptor.Key LabelResourceID := FsStats.Device fs ]};
                  LabeledMetric.MetricValue :=
                    {| MetricValue.ValueType := ValueInt64;
                       MetricValue.MetricType := MetricGauge;
                       MetricValue.FloatValue := 0;
                       MetricValue.IntValue := Go.int64 (FsStats.Inodes fs) |} |} ]
           else result)
           [] (ContainerStats.Filesystem stat)) |}.

Definition MetricFilesystemInodesFree : Metric.t :=
  {| Metric.MetricDescriptor :=
       {| MetricDescriptor.Name := "filesystem/inodes_free";
          MetricDescriptor.Description :=
            "Free number of inodes on a filesystem";
          MetricDescriptor.Type_ := MetricGauge;
          MetricDescriptor.ValueType := ValueInt64;
          MetricDescriptor.Units := UnitsBytes;
          MetricDescriptor.Labels := metricLabels |};
     Metric.HasValue := None;
     Metric.GetValue := None;
     Metric.HasLabeledMetric :=
       Some (λ spec stat, ContainerSpec.HasFilesystem spec);
     Metric.GetLabeledMetric :=
       Some (λ now c stat,
         foldl (λ result fs,
           if FsStats.HasInodes fs
           then
             result ++
             [ {| LabeledMetric.Name := "filesystem/inodes_free";
                  LabeledMetric.Labels :=
                    {[ LabelDescriptor.Key LabelResourceID := FsStats.Device fs ]};
                  LabeledMetric.MetricValue :=
                    {| MetricValue.ValueType := ValueInt64;
                       MetricValue.MetricType := MetricGauge;
                       MetricValue.FloatValue := 0;
                       MetricValue.IntValue := Go.int64 (FsStats.InodesFree fs) |} |} ]
           else result)
           [] (ContainerStats.Filesystem stat)) |}.

Definition MetricDiskIORead : Metric.t :=
  {| Metric.MetricDescriptor :=
       {| MetricDescriptor.Name := "disk/io_read_bytes";
          MetricDescriptor.Description :=
            "Cumulative number of bytes read over disk";
          MetricDescriptor.Type_ := MetricCumulative;
          MetricDescriptor.ValueType := ValueInt64;
          MetricDescriptor.Units := UnitsBytes;
          MetricDescriptor.Labels := metricLabels |};
     Metric.HasValue := None;
     Metric.GetValue := None;
     Metric.HasLabeledMetric :=
       Some (λ spec stat, ContainerSpec.HasDiskIo spec);
     Metric.GetLabeledMetric :=
       Some (λ now info stat,
         foldl (λ result ioServiceBytesPerPartition,
           let resourceIDKey := PerDiskStats.Device ioServiceBytesPerPartition in
           let resourceIDKey :=
             if String.eqb resourceIDKey ""
             then fmt.Sprintf_d_colon_d
                    (PerDiskStats.Major ioServiceBytesPerPartition)
                    (PerDiskStats.Minor ioServiceBytesPerPartition)
             else resourceIDKey in
           let value :=
             match PerDiskStats.Stats ioServiceBytesPerPartition !! "Read" with
             | Some v => v
             | None => 0
             end in
           result ++
           [ {| LabeledMetric.Name := "disk/io_read_bytes";
                LabeledMetric.Labels :=
                  {[ LabelDescriptor.Key LabelResourceID := resourceIDKey ]};
                LabeledMetric.MetricValue :=
                  {| MetricValue.ValueType := ValueInt64;
                     MetricValue.MetricType := MetricGauge;
                     MetricValue.FloatValue := 0;
                     MetricValue.IntValue := Go.int64 value |} |} ])
           [] (DiskIoStats.IoServiceBytes (ContainerStats.DiskIo stat))) |}.

Definition MetricDiskIOWrite : Metric.t :=
  {| Metric.MetricDescriptor :=
       {| MetricDescriptor.Name := "disk/io_write_bytes";
          MetricDescriptor.Description :=
            "Cumulative number of bytes write over disk";
          MetricDescriptor.Type_ := MetricCumulative;
          MetricDescriptor.ValueType := ValueInt64;
          MetricDescriptor.Units := UnitsBytes;
          MetricDescriptor.Labels := metricLabels |};
     Metric.HasValue := None;
     Metric.GetValue := None;
     Metric.HasLabeledMetric :=
       Some (λ spec stat, ContainerSpec.HasDiskIo spec);
     Metric.GetLabeledMetric :=
       Some (λ now info stat,
         foldl (λ result ioServiceBytesPerPartition,
           let resourceIDKey := PerDiskStats.Device ioServiceBytesPerPartition in
           let resourceIDKey :=
             if String.eqb resourceIDKey ""
             then fmt.Sprintf_d_colon_d
                    (PerDiskStats.Major ioServiceBytesPerPartition)
                    (PerDiskStats.Minor ioServiceBytesPerPartition)
             else resourceIDKey in
           let value :=
             match PerDiskStats.Stats ioServiceBytesPerPartition !! "Write" with
             | Some v => v
             | None => 0
             end in
           result ++
           [ {| LabeledMetric.Name := "disk/io_write_bytes";
                LabeledMetric.Labels :=
                  {[ LabelDescriptor.Key LabelResourceID := resourceIDKey ]};
                LabeledMetric.MetricValue :=
                  {| MetricValue.ValueType := ValueInt64;
                     MetricValue.MetricType := MetricGauge;
                     MetricValue.FloatValue := 0;
                     MetricValue.IntValue := Go.int64 value |} |} ])
           [] (DiskIoStats.IoServiceBytes (ContainerStats.DiskIo stat))) |}.

Definition MetricDiskIOReadRate : Metric.t :=
  descriptorOnly
    {| MetricDescriptor.Name := "disk/io_read_bytes_rate";
       MetricDescriptor.Description :=
         "Rate of bytes read over disk in bytes per second";
       MetricDescriptor.Type_ := MetricGauge;
       MetricDescriptor.ValueType := ValueFloat;
       MetricDescriptor.Units := UnitsCount;
       MetricDescriptor.Labels := metricLabels |}.

Definition MetricDiskIOWriteRate : Metric.t :=
  descriptorOnly
    {| MetricDescriptor.Name := "disk/io_write_bytes_rate";
       MetricDescriptor.Description :=
         "Rate of bytes written over disk in bytes per second";
       MetricDescriptor.Type_ := MetricGauge;
       MetricDescriptor.ValueType := ValueFloat;
       MetricDescriptor.Units := UnitsCount;
       MetricDescriptor.Labels := metricLabels |}.

(** The map literal with the three accelerator labels; its keys are
    entered in the order written, a later equal key replacing an earlier
    one. *)
Definition acceleratorLabelSet (ac : AcceleratorStats.t) : gmap string string :=
  <[ LabelDescriptor.Key LabelAcceleratorID := AcceleratorStats.ID ac ]>
    (<[ LabelDescriptor.Key LabelAcceleratorModel := AcceleratorStats.Model ac ]>
       (<[ LabelDescriptor.Key LabelAcceleratorMake := AcceleratorStats.Make ac ]> ∅)).

Definition MetricAcceleratorMemoryTotal : Metric.t :=
  {| Metric.MetricDescriptor :=
       {| MetricDescriptor.Name := "accelerator/memory_total";
          MetricDescriptor.Description := "Total accelerator memory (in bytes)";
          MetricDescriptor.Labels := acceleratorLabels;
          MetricDescriptor.Type_ := MetricGauge;
          MetricDescriptor.ValueType := ValueInt64;
          MetricDescriptor.Units := UnitsBytes |};
     Metric.HasValue := None;
     Metric.GetValue := None;
     Metric.HasLabeledMetric :=
       Some (λ spec stat,
         if (length (ContainerStats.Accelerators stat) =? 0)%nat
         then false else true);
     Metric.GetLabeledMetric :=
       Some (λ now info stat,
         foldl (λ result ac,
           result ++
           [ {| LabeledMetric.Name := "accelerator/memory_total";
                LabeledMetric.Labels := acceleratorLabelSet ac;
                LabeledMetric.MetricValue :=
                  {| MetricValue.ValueType := ValueInt64;
                     MetricValue.MetricType := MetricGauge;
                     MetricValue.FloatValue := 0;
                     MetricValue.IntValue :=
                       Go.int64 (AcceleratorStats.MemoryTotal ac) |} |} ])
           [] (ContainerStats.Accelerators stat)) |}.

Definition MetricAcceleratorMemoryUsed : Metric.t :=
  {| Metric.MetricDescriptor :=
       {| MetricDescriptor.Name := "accelerator/memory_used";
          MetricDescriptor.Description :=
            "Total accelerator memory allocated (in bytes)";
          MetricDescriptor.Labels := acceleratorLabels;
          MetricDescriptor.Type_ := MetricGauge;
          MetricDescriptor.ValueType := ValueInt64;
          MetricDescriptor.Units := UnitsBytes |};
     Metric.HasValue := None;
     Metric.GetValue := None;
     Metric.HasLabeledMetric :=
       Some (λ spec stat,
         if (length (ContainerStats.Accelerators stat) =? 0)%nat
         then false else true);
     Metric.GetLabeledMetric :=
       Some (λ now info stat,
         foldl (λ result ac,
           result ++
           [ {| LabeledMetric.Name := "accelerator/memory_used";
                LabeledMetric.Labels := acceleratorLabelSet ac;
                LabeledMetric.MetricValue :=
                  {| MetricValue.ValueType := ValueInt64;
                     MetricValue.MetricType := MetricGauge;
                     MetricValue.FloatValue := 0;
                     MetricValue.IntValue :=
                       Go.int64 (AcceleratorStats.MemoryUsed ac) |} |} ])
           [] (ContainerStats.Accelerators stat)) |}.

Definition MetricAcceleratorDutyCycle : Metric.t :=
  {| Metric.MetricDescriptor :=
       {| MetricDescriptor.Name := "accelerator/duty_cycle";
          MetricDescriptor.Description :=
            "Percent of time over the past sample period (10s) during which the accelerator was actively processing";
          MetricDescriptor.Labels := acceleratorLabels;
          MetricDescriptor.Type_ := MetricGauge;
          MetricDescriptor.ValueType := ValueInt64;
          MetricDescriptor.Units := UnitsCount |};
     Metric.HasValue := None;
     Metric.GetValue := None;
     Metric.HasLabeledMetric :=
       Some (λ spec stat,
         if (length (ContainerStats.Accelerators stat) =? 0)%nat
         then false else true);
     Metric.GetLabeledMetric :=
       Some (λ now info stat,
         foldl (λ result ac,
           result ++
           [ {| LabeledMetric.Name := "accelerator/duty_cycle";
                LabeledMetric.Labels := acceleratorLabelSet ac;
                LabeledMetric.MetricValue :=
                  {| MetricValue.ValueType := ValueInt64;
                     MetricValue.MetricType := MetricGauge;
                     MetricValue.FloatValue := 0;
                     MetricValue.IntValue :=
                       Go.int64 (AcceleratorStats.DutyCycle ac) |} |} ])
           [] (ContainerStats.Accelerators stat)) |}.

Definition MetricNodeAcceleratorCapacity : Metric.t :=
  descriptorOnly
    {| MetricDescriptor.Name := "accelerator/node_capacity";
       MetricDescriptor.Description := "Accelerator capacity of a node";
       MetricDescriptor.Type_ := MetricGauge;
       MetricDescriptor.ValueType := ValueFloat;
       MetricDescriptor.Units := UnitsCount;
       MetricDescriptor.Labels := acceleratorCapacityLabels |}.

(** ** The registries *)

(** Go's [append(s, elems...)]. Every registry below is a slice literal,
    whose capacity is its length, so each [append] of [AllMetrics] copies
    into a fresh array and writes to none of its operands: the result is
    the elements of [s] followed by [elems]. *)
Definition append {A : Type} (s elems : list A) : list A := s ++ elems.

(** Provided by Kubelet/cadvisor. *)
Definition StandardMetrics : list Metric.t :=
  [ MetricUptime;
    MetricCpuUsage;
    MetricMemoryCache;
    MetricMemoryRSS;
    MetricMemoryUsage;
    MetricMemoryRSS;
    MetricMemoryCache;
    MetricMemoryWorkingSet;
    MetricMemoryPageFaults;
    MetricMemoryMajorPageFaults;
    MetricNetworkRx;
    MetricNetworkRxErrors;
    MetricNetworkTx;
    MetricNetworkTxErrors ].

(** Metrics computed based on cluster state using Kubernetes API. *)
Definition AdditionalMetrics : list Metric.t :=
  [ MetricCpuRequest;
    MetricCpuLimit;
    MetricMemoryRequest;
    MetricMemoryLimit ].

(** Computed based on corresponding StandardMetrics. *)
Definition RateMetrics : list Metric.t :=
  [ MetricCpuUsageRate;
    MetricNetworkRxRate;
    MetricNetworkTxRate;
    MetricDiskIOReadRate;
    MetricDiskIOWriteRate ].

(** The map literal, its entries entered in the order written. *)
Definition RateMetricsMapping : gmap string Metric.t :=
  <[ Metric.Name MetricDiskIOWrite := MetricDiskIOWriteRate ]>
    (<[ Metric.Name MetricDiskIORead := MetricDiskIOReadRate ]>
       (<[ Metric.Name MetricNetworkTx := MetricNetworkTxRate ]>
          (<[ Metric.Name MetricNetworkRx := MetricNetworkRxRate ]>
             (<[ Metric.Name MetricCpuUsage := MetricCpuUsageRate ]> ∅)))).

Definition LabeledMetrics : list Metric.t :=
  [ MetricDiskIORead;
    MetricDiskIOReadRate;
    MetricDiskIOWrite;
    MetricDiskIOWriteRate;
    MetricFilesystemUsage;
    MetricFilesystemLimit;
    MetricFilesystemAvailable;
    MetricFilesystemInodes;
    MetricFilesystemInodesFree;
    MetricAcceleratorMemoryTotal;
    MetricAcceleratorMemoryUsed;
    MetricAcceleratorDutyCycle ].

Definition NodeAutoscalingMetrics : list Metric.t :=
  [ MetricNodeCpuCapacity;
    MetricNodeMemoryCapacity;
    MetricNodeCpuAllocatable;
    MetricNodeMemoryAllocatable;
    MetricNodeCpuUtilization;
    MetricNodeMemoryUtilization;
    MetricNodeCpuReservation;
    MetricNodeMemoryReservation ].

Definition CpuMetrics : list Metric.t :=
  [ MetricCpuLimit;
    MetricCpuRequest;
    MetricCpuUsage;
    MetricCpuUsageRate;
    MetricNodeCpuAllocatable;
    MetricNodeCpuCapacity;
    MetricNodeCpuReservation;
    MetricNodeCpuUtilization ].

Definition FilesystemMetrics : list Metric.t :=
  [ MetricFilesystemAvailable;
    MetricFilesystemLimit;
    MetricFilesystemUsage;
    MetricFilesystemInodes;
    MetricFilesystemInodesFree ].

Definition MemoryMetrics : list Metric.t :=
  [ MetricMemoryLimit;
    MetricMemoryMajorPageFaults;
    MetricMemoryPageFaults;
    MetricMemoryRequest;
    MetricMemoryUsage;
    MetricMemoryRSS;
    MetricMemoryCache;
    MetricMemoryWorkingSet;
    MetricNodeMemoryAllocatable;
    MetricNodeMemoryCapacity;
    MetricNodeMemoryUtilization;
    MetricNodeMemoryReservation ].

Definition NetworkMetrics : list Metric.t :=
  [ MetricNetworkRx;
    MetricNetworkRxErrors;
    MetricNetworkRxRate;
    MetricNetworkTx;
    MetricNetworkTxErrors;
    MetricNetworkTxRate ].

Definition MetricFamily : Type := string.

Definition MetricFamilyCpu : MetricFamily := "cpu".
Definition MetricFamilyFilesystem : MetricFamily := "filesystem".
Definition MetricFamilyMemory : MetricFamily := "memory".
Definition MetricFamilyNetwork : MetricFamily := "network".
Definition MetricFamilyGeneral : MetricFamily := "general".

(** The entries of the map literal [MetricFamilies]; its four keys differ. *)
Definition MetricFamilies : list (MetricFamily * list Metric.t) :=
  [ (MetricFamilyCpu, CpuMetrics);
    (MetricFamilyFilesystem, FilesystemMetrics);
    (MetricFamilyMemory, MemoryMetrics);
    (MetricFamilyNetwork, NetworkMetrics) ].

(** A [range] over a Go map visits its entries in an order that the
    language leaves open and that changes from one loop to the next: any
    arrangement of the entries can be the one a call sees. *)
Definition rangeOrder (order : list (MetricFamily * list Metric.t)) : Prop :=
  order ≡ₚ MetricFamilies.

(** [MetricFamilyForName], run with the order in which its outer [range]
    visits [MetricFamilies]. *)
Fixpoint MetricFamilyForName (order : list (MetricFamily * list Metric.t))
    (metricName : string) : MetricFamily :=
  match order with
  | [] => MetricFamilyGeneral
  | (family, metrics) :: rest =>
      if existsb (λ metric, String.eqb metricName (Metric.Name metric)) metrics
      then family
      else MetricFamilyForName rest metricName
  end.

Definition AllMetrics : list Metric.t :=
  append
    (append
       (append (append StandardMetrics AdditionalMetrics) RateMetrics)
       LabeledMetrics)
    NodeAutoscalingMetrics.

Definition IsNodeAutoscalingMetric (name : string) : bool :=
  existsb (λ autoscalingMetric, String.eqb (Metric.Name autoscalingMetric) name)
    NodeAutoscalingMetrics.

End Catalog.

(** ** Inputs for the closed examples *)

(** A declaration of the labels, for the examples only: the theorems hold
    for every declaration. *)
Definition exampleLabels : LabelDeclarations :=
  {| LabelResourceID := LabelDescriptor.mk "resource_id" "";
     LabelAcceleratorMake := LabelDescriptor.mk "make" "";
     LabelAcceleratorModel := LabelDescriptor.mk "model" "";
     LabelAcceleratorID := LabelDescriptor.mk "accelerator_id" "";
     metricLabels := [];
     acceleratorLabels := [];
     acceleratorCapacityLabels := [] |}.

Definition exampleSpec : ContainerSpec.t :=
  {| ContainerSpec.CreationTime := 1000000;
     ContainerSpec.HasCpu := true;
     ContainerSpec.HasMemory := true;
     ContainerSpec.HasNetwork := true;
     ContainerSpec.HasFilesystem := true;
     ContainerSpec.HasDiskIo := true |}.

Definition exampleNode : ContainerInfo.t :=
  {| ContainerInfo.Spec := exampleSpec; ContainerInfo.Aggregate := true |}.

Definition exampleContainer : ContainerInfo.t :=
  {| ContainerInfo.Spec := exampleSpec; ContainerInfo.Aggregate := false |}.

Definition exampleFilesystems : list FsStats.t :=
  [ FsStats.mk "/dev/sda1" 1000 400 true 64 32;
    FsStats.mk "tmpfs" 500 100 false 0 0;
    FsStats.mk "/dev/sdb1" 2000 800 true 128 100 ].

(** A partition without a device name, with major 8 and minor 1, whose
    operation map holds only ["Write": 500]. *)
Definition examplePartition : PerDiskStats.t :=
  {| PerDiskStats.Device := "";
     PerDiskStats.Major := 8;
     PerDiskStats.Minor := 1;
     PerDiskStats.Stats := {[ "Write" := 500 ]} |}.

Definition exampleStats : ContainerStats.t :=
  {| ContainerStats.Cpu := CpuStats.mk (CpuUsage.mk 123456789);
     ContainerStats.Memory :=
       MemoryStats.mk 1048576 4096 8192 65536 (MemoryStatsMemoryData.mk 7 3);
     ContainerStats.Network :=
       NetworkStats.mk
         [ InterfaceStats.mk 100 1 200 2; InterfaceStats.mk 50 0 25 4 ];
     ContainerStats.Filesystem := exampleFilesystems;
     ContainerStats.DiskIo := DiskIoStats.mk [ examplePartition ];
     ContainerStats.Accelerators := [] |}.

(** An order of the scan of [MetricFamilies] other than the written one. *)
Definition exampleOrder : list (MetricFamily * list Metric.t) :=
  reverse (MetricFamilies (labels := exampleLabels)).

Definition exampleAccelerator : AcceleratorStats.t :=
  AcceleratorStats.mk "nvidia" "tesla-k80" "GPU-0" 12000 4000 75.

(** A partition with a device name and both operation counters. *)
Definition exampleNamedPartition : PerDiskStats.t :=
  {| PerDiskStats.Device := "/dev/sda";
     PerDiskStats.Major := 8;
     PerDiskStats.Minor := 0;
     PerDiskStats.Stats := <[ "Read" := 70 ]> {[ "Write" := 30 ]} |}.

(** A snapshot with one accelerator, a named partition, and a CPU counter
    beyond the largest [int64]. *)
Definition exampleDeviceStats : ContainerStats.t :=
  {| ContainerStats.Cpu := CpuStats.mk (CpuUsage.mk (2 ^ 63 + 5));
     ContainerStats.Memory :=
       MemoryStats.mk 1048576 4096 8192 65536 (MemoryStatsMemoryData.mk 7 3);
     ContainerStats.Network :=
       NetworkStats.mk
         [ InterfaceStats.mk 50 0 25 4; InterfaceStats.mk 100 1 200 2 ];
     ContainerStats.Filesystem := exampleFilesystems;
     ContainerStats.DiskIo := DiskIoStats.mk [ exampleNamedPartition ];
     ContainerStats.Accelerators := [ exampleAccelerator ] |}.

(** A creation time that a wall clock gives: 13 February 2009, 23:31:30
    UTC, which is 63370164690 seconds after the zero time. *)
Definition exampleCreated : time.Time := 63370164690 * 1000000000.

(** Two readings of the clock, 5 and 9 seconds after [exampleCreated]. *)
Definition exampleClock : time.Time := exampleCreated + 5 * 1000000000.
Definition exampleLaterClock : time.Time := exampleCreated + 9 * 1000000000.

(** An individual unit created at [exampleCreated]. *)
Definition exampleRecentContainer : ContainerInfo.t :=
  {| ContainerInfo.Spec :=
       {| ContainerSpec.CreationTime := exampleCreated;
          ContainerSpec.HasCpu := true;
          ContainerSpec.HasMemory := true;
          ContainerSpec.HasNetwork := true;
          ContainerSpec.HasFilesystem := true;
          ContainerSpec.HasDiskIo := true |};
     ContainerInfo.Aggregate := false |}.

(** * Properties *)

(** ** Scalar extraction *)

(** C1. On an entity that [IsNode] flags as an aggregate, each of the
    eleven gated scalar metrics has a [GetValue], and calling it on any
    clock reading and any snapshot returns a value whose [IntValue] is
    exactly 0, whatever the raw fields of the snapshot and whatever the
    capability flags of the entity. *)
Theorem node_suppression (now : time.Time) (c : ContainerInfo.t)
    (stat : ContainerStats.t) :
  metrics.IsNode c = true →
  Forall
    (λ m, ∃ v, Metric.callGetValue m now c stat = Some v
               ∧ MetricValue.IntValue v = 0)
    [ MetricCpuUsage; MetricMemoryUsage; MetricMemoryCache; MetricMemoryRSS;
      MetricMemoryWorkingSet; MetricMemoryPageFaults;
      MetricMemoryMajorPageFaults; MetricNetworkRx; MetricNetworkRxErrors;
      MetricNetworkTx; MetricNetworkTxErrors ].
Proof.
  intros Hnode.
  repeat apply Forall_cons_2; try apply Forall_nil_2;
    (eexists; split; [reflexivity |]); cbn; rewrite Hnode; reflexivity.
Qed.

Lemma node_suppression_witness :
  metrics.IsNode exampleNode = true
  ∧ Forall
      (λ m, ∃ v, Metric.callGetValue m 5000000 exampleNode exampleStats = Some v
                 ∧ MetricValue.IntValue v = 0)
      [ MetricCpuUsage; MetricMemoryUsage; MetricMemoryCache; MetricMemoryRSS;
        MetricMemoryWorkingSet; MetricMemoryPageFaults;
        MetricMemoryMajorPageFaults; MetricNetworkRx; MetricNetworkRxErrors;
        MetricNetworkTx; MetricNetworkTxErrors ].
Proof.
  split; [reflexivity |].
  apply (node_suppression 5000000 exampleNode exampleStats). reflexivity.
Defined.

(** On the example node every gated metric is applicable, by its
    [HasValue], and is suppressed all the same. *)
Example gated_metrics_applicable_on_node :
  Forall
    (λ m, ∃ has, Metric.HasValue m = Some has
                 ∧ has (ContainerInfo.Spec exampleNode) = true)
    [ MetricCpuUsage; MetricMemoryUsage; MetricMemoryCache; MetricMemoryRSS;
      MetricMemoryWorkingSet; MetricMemoryPageFaults;
      MetricMemoryMajorPageFaults; MetricNetworkRx; MetricNetworkRxErrors;
      MetricNetworkTx; MetricNetworkTxErrors ].
Proof.
  repeat (apply Forall_cons_2 || apply Forall_nil_2);
    eexists; split; reflexivity.
Qed.

(** The end-to-end scenario of the spec: on an individual unit the raw
    memory usage comes through, with the type and kind of the metric. *)
Example memory_usage_individual :
  Metric.callGetValue MetricMemoryUsage 5000000 exampleContainer exampleStats
  = Some {| MetricValue.ValueType := ValueInt64;
            MetricValue.MetricType := MetricGauge;
            MetricValue.FloatValue := 0;
            MetricValue.IntValue := 1048576 |}.
Proof. reflexivity. Qed.

(** ** The registries *)

Section Registries.
Context {labels : LabelDeclarations}.

(** C2. [AllMetrics] lists a name more than once: "memory/cache" stands
    at positions 2 and 6 and "memory/rss" at positions 3 and 5 (both are
    written twice in [StandardMetrics]), and the two disk rate metrics
    stand both in [RateMetrics] (positions 21 and 22) and in
    [LabeledMetrics] (positions 24 and 26). The names of [AllMetrics] are
    therefore not pairwise different. *)
Theorem AllMetrics_repeats_names :
  let names := Metric.Name <$> AllMetrics in
  (names !! 2%nat = Some "memory/cache" ∧ names !! 6%nat = Some "memory/cache")
  ∧ (names !! 3%nat = Some "memory/rss" ∧ names !! 5%nat = Some "memory/rss")
  ∧ (names !! 21%nat = Some "disk/io_read_bytes_rate"
     ∧ names !! 24%nat = Some "disk/io_read_bytes_rate")
  ∧ (names !! 22%nat = Some "disk/io_write_bytes_rate"
     ∧ names !! 26%nat = Some "disk/io_write_bytes_rate")
  ∧ ¬ NoDup names.
Proof.
  repeat split; try reflexivity.
  intros Hnodup.
  assert (2 = 6)%nat as Heq; [| discriminate Heq].
  apply (NoDup_lookup _ _ _ "memory/cache" Hnodup); reflexivity.
Qed.

(** C3, as the code has it. [AllMetrics] is the concatenation, in
    declaration order, of five groups: [StandardMetrics],
    [AdditionalMetrics], [RateMetrics], [LabeledMetrics] and
    [NodeAutoscalingMetrics]. It has 43 entries, in the order of names
    given, and an entry is in it exactly when it is in one of the five
    groups. *)
Theorem AllMetrics_five_groups :
  AllMetrics
  = StandardMetrics ++ AdditionalMetrics ++ RateMetrics ++ LabeledMetrics
      ++ NodeAutoscalingMetrics
  ∧ (∀ m, m ∈ AllMetrics ↔
          m ∈ StandardMetrics ∨ m ∈ AdditionalMetrics ∨ m ∈ RateMetrics
          ∨ m ∈ LabeledMetrics ∨ m ∈ NodeAutoscalingMetrics)
  ∧ Metric.Name <$> AllMetrics
    = [ "uptime"; "cpu/usage"; "memory/cache"; "memory/rss"; "memory/usage";
        "memory/rss"; "memory/cache"; "memory/working_set";
        "memory/page_faults"; "memory/major_page_faults"; "network/rx";
        "network/rx_errors"; "network/tx"; "network/tx_errors";
        "cpu/request"; "cpu/limit"; "memory/request"; "memory/limit";
        "cpu/usage_rate"; "network/rx_rate"; "network/tx_rate";
        "disk/io_read_bytes_rate"; "disk/io_write_bytes_rate";
        "disk/io_read_bytes"; "disk/io_read_bytes_rate";
        "disk/io_write_bytes"; "disk/io_write_bytes_rate";
        "filesystem/usage"; "filesystem/limit"; "filesystem/available";
        "filesystem/inodes"; "filesystem/inodes_free";
        "accelerator/memory_total"; "accelerator/memory_used";
        "accelerator/duty_cycle";
        "cpu/node_capacity"; "memory/node_capacity"; "cpu/node_allocatable";
        "memory/node_allocatable"; "cpu/node_utilization";
        "memory/node_utilization"; "cpu/node_reservation";
        "memory/node_reservation" ].
Proof.
  assert (AllMetrics
          = StandardMetrics ++ AdditionalMetrics ++ RateMetrics
              ++ LabeledMetrics ++ NodeAutoscalingMetrics) as Heq.
  { unfold AllMetrics, append. by rewrite <- !(assoc_L (++)). }
  split; [exact Heq |]. split; [| reflexivity].
  intros m. rewrite Heq, !elem_of_app. tauto.
Qed.

End Registries.

Section RegistriesExamples.
Existing Instance exampleLabels.

(** C3, as the claim has it, fails: the four groups make up 35 entries
    and [AllMetrics] has 43. *)
Lemma AllMetrics_not_four_groups :
  AllMetrics
  ≠ append (append (append StandardMetrics AdditionalMetrics) RateMetrics)
      LabeledMetrics.
Proof.
  intros Heq. apply (f_equal length) in Heq. vm_compute in Heq.
  discriminate Heq.
Qed.

Example AllMetrics_lengths :
  length AllMetrics = 43%nat
  ∧ length
      (append (append (append StandardMetrics AdditionalMetrics) RateMetrics)
         LabeledMetrics) = 35%nat.
Proof. split; reflexivity. Qed.

End RegistriesExamples.

(** ** The family lookup *)

Section Families.
Context {labels : LabelDeclarations}.

Lemma existsb_name (metricName : string) (metrics : list Metric.t) :
  existsb (λ metric, String.eqb metricName (Metric.Name metric)) metrics = true
  ↔ ∃ metric, metric ∈ metrics ∧ Metric.Name metric = metricName.
Proof.
  rewrite existsb_exists. split.
  - intros (metric & Hin & Heq). exists metric.
    apply list_elem_of_In in Hin. apply String.eqb_eq in Heq. by split.
  - intros (metric & Hin & Heq). exists metric.
    apply list_elem_of_In in Hin. split; [done |]. by apply String.eqb_eq.
Qed.

(** What a scan returns, for any order of the entries: the family of an
    entry that lists the name, or [MetricFamilyGeneral] when no entry
    does. *)
Lemma MetricFamilyForName_cases
    (order : list (MetricFamily * list Metric.t)) (metricName : string) :
  (∃ metrics metric,
      (MetricFamilyForName order metricName, metrics) ∈ order
      ∧ metric ∈ metrics ∧ Metric.Name metric = metricName)
  ∨ (MetricFamilyForName order metricName = MetricFamilyGeneral
     ∧ ∀ family metrics metric,
         (family, metrics) ∈ order → metric ∈ metrics →
         Metric.Name metric ≠ metricName).
Proof.
  induction order as [| [family metrics] rest IH]; simpl.
  - right. split; [done |]. intros ? ? ? Hin. by apply elem_of_nil in Hin.
  - destruct (existsb _ metrics) eqn:Hscan.
    + left. apply existsb_name in Hscan as (metric & Hin & Heq).
      exists metrics, metric. split; [apply list_elem_of_here | done].
    + destruct IH as [(metrics' & metric & Hin & Hm & Heq) | [Hgen Hnone]].
      * left. exists metrics', metric. split; [by apply list_elem_of_further | done].
      * right. split; [done |].
        intros family' metrics' metric [Hhd | Htl]%elem_of_cons Hm Heq.
        -- injection Hhd as -> ->.
           assert (existsb (λ metric, String.eqb metricName (Metric.Name metric))
                     metrics = true) as Htrue
             by (apply existsb_name; eauto).
           congruence.
        -- by apply (Hnone family' metrics' metric).
Qed.

(** In the order written, every listed metric resolves to the family of
    the list it stands in. *)
Lemma listed_family_declared :
  Forall
    (λ entry, Forall
       (λ metric,
          MetricFamilyForName MetricFamilies (Metric.Name metric) = entry.1)
       entry.2)
    MetricFamilies.
Proof. repeat (apply Forall_cons_2 || apply Forall_nil_2); reflexivity. Qed.

(** The per-family lists are pairwise disjoint by name. *)
Lemma families_disjoint (family1 family2 : MetricFamily)
    (metrics1 metrics2 : list Metric.t) (metric1 metric2 : Metric.t) :
  (family1, metrics1) ∈ MetricFamilies → metric1 ∈ metrics1 →
  (family2, metrics2) ∈ MetricFamilies → metric2 ∈ metrics2 →
  Metric.Name metric1 = Metric.Name metric2 →
  family1 = family2.
Proof.
  intros He1 Hm1 He2 Hm2 Hname.
  pose proof listed_family_declared as Hall.
  rewrite Forall_forall in Hall.
  pose proof (Hall _ He1) as H1. pose proof (Hall _ He2) as H2.
  rewrite Forall_forall in H1, H2.
  specialize (H1 _ Hm1). specialize (H2 _ Hm2). simpl in H1, H2.
  rewrite <- H1, <- H2. by rewrite Hname.
Qed.

Lemma rangeOrder_elem (order : list (MetricFamily * list Metric.t))
    (entry : MetricFamily * list Metric.t) :
  rangeOrder order → entry ∈ order ↔ entry ∈ MetricFamilies.
Proof. unfold rangeOrder. intros Hperm. by rewrite Hperm. Qed.

Lemma MetricFamilyForName_listed
    (order : list (MetricFamily * list Metric.t))
    (family : MetricFamily) (metrics : list Metric.t) (metric : Metric.t) :
  rangeOrder order →
  (family, metrics) ∈ MetricFamilies → metric ∈ metrics →
  MetricFamilyForName order (Metric.Name metric) = family.
Proof.
  intros Hperm He Hm.
  destruct (MetricFamilyForName_cases order (Metric.Name metric))
    as [(metrics' & metric' & Hin & Hm' & Heq) | [_ Hnone]].
  - apply (rangeOrder_elem _ _ Hperm) in Hin.
    exact (families_disjoint _ _ _ _ _ _ Hin Hm' He Hm Heq).
  - exfalso. apply (rangeOrder_elem _ _ Hperm) in He.
    by apply (Hnone _ _ _ He Hm).
Qed.

Lemma listed_name (family : MetricFamily) (metrics : list Metric.t)
    (metric : Metric.t) :
  (family, metrics) ∈ MetricFamilies → metric ∈ metrics →
  Metric.Name metric ∈ Metric.Name <$> mjoin (snd <$> MetricFamilies).
Proof.
  intros He Hm. apply list_elem_of_fmap_2, list_elem_of_join.
  exists metrics. split; [done |].
  by apply (list_elem_of_fmap_2 snd _ (family, metrics)).
Qed.

Lemma MetricFamilyForName_unlisted
    (order : list (MetricFamily * list Metric.t)) (metricName : string) :
  rangeOrder order →
  metricName ∉ Metric.Name <$> mjoin (snd <$> MetricFamilies) →
  MetricFamilyForName order metricName = MetricFamilyGeneral.
Proof.
  intros Hperm Hnone.
  destruct (MetricFamilyForName_cases order metricName)
    as [(metrics' & metric' & Hin & Hm' & Heq) | [Hgen _]]; [| done].
  exfalso. apply (rangeOrder_elem _ _ Hperm) in Hin.
  apply Hnone. rewrite <- Heq. by eapply listed_name.
Qed.

(** The order of the scan does not matter. *)
Lemma MetricFamilyForName_order
    (order1 order2 : list (MetricFamily * list Metric.t)) (metricName : string) :
  rangeOrder order1 → rangeOrder order2 →
  MetricFamilyForName order1 metricName = MetricFamilyForName order2 metricName.
Proof.
  intros Hperm1 Hperm2.
  destruct (MetricFamilyForName_cases order1 metricName)
    as [(metrics & metric & Hin & Hm & Heq) | [Hgen Hnone]].
  - apply (rangeOrder_elem _ _ Hperm1) in Hin. subst metricName.
    symmetry. by apply (MetricFamilyForName_listed order2 _ metrics).
  - rewrite Hgen. symmetry. apply MetricFamilyForName_unlisted; [done |].
    intros (metric & Heq & Hjoin)%list_elem_of_fmap.
    apply list_elem_of_join in Hjoin as (metrics & Hm & Hmetrics).
    apply list_elem_of_fmap in Hmetrics as ([family metrics'] & Hsnd & He).
    simpl in Hsnd. subst metrics'.
    apply (rangeOrder_elem _ _ Hperm1) in He.
    by apply (Hnone family metrics metric).
Qed.

(** C7. Whatever the order in which the scan visits the four entries of
    [MetricFamilies]: a metric that stands in a per-family list resolves,
    by its name, to exactly the family of that list; a name that is not
    among the names of the per-family lists resolves to
    [MetricFamilyGeneral]; and the
    per-family lists are pairwise disjoint by name. *)
Theorem MetricFamilyForName_partition
    (order : list (MetricFamily * list Metric.t)) :
  rangeOrder order →
  (∀ family metrics metric,
      (family, metrics) ∈ MetricFamilies → metric ∈ metrics →
      MetricFamilyForName order (Metric.Name metric) = family)
  ∧ (∀ metricName,
        metricName ∉ Metric.Name <$> mjoin (snd <$> MetricFamilies) →
        MetricFamilyForName order metricName = MetricFamilyGeneral)
  ∧ (∀ family1 metrics1 metric1 family2 metrics2 metric2,
        (family1, metrics1) ∈ MetricFamilies → metric1 ∈ metrics1 →
        (family2, metrics2) ∈ MetricFamilies → metric2 ∈ metrics2 →
        Metric.Name metric1 = Metric.Name metric2 → family1 = family2).
Proof.
  intros Hperm. split; [| split].
  - intros family metrics metric. by apply MetricFamilyForName_listed.
  - intros metricName. by apply MetricFamilyForName_unlisted.
  - intros. by eapply families_disjoint.
Qed.

End Families.

Section FamiliesExamples.
Existing Instance exampleLabels.

Lemma MetricFamilyForName_partition_witness :
  rangeOrder exampleOrder
  ∧ MetricFamilyForName exampleOrder (Metric.Name MetricCpuUsage)
    = MetricFamilyCpu
  ∧ MetricFamilyForName exampleOrder "uptime" = MetricFamilyGeneral.
Proof.
  assert (rangeOrder exampleOrder) as Horder by apply reverse_Permutation.
  split; [exact Horder |].
  destruct (MetricFamilyForName_partition _ Horder) as (Hlisted & Hunlisted & _).
  split.
  - apply (Hlisted MetricFamilyCpu CpuMetrics MetricCpuUsage);
      repeat constructor.
  - apply Hunlisted. apply (bool_decide_unpack _). vm_compute. exact I.
Defined.

End FamiliesExamples.

(** ** Determinism of the extractors and of the lookups *)

(** C4, as the claim has it, fails: called on the same entity and the
    same snapshot at two readings of the clock, 5 and 9 seconds after the
    entity was created, the [GetValue] of [MetricUptime] returns 5000 and
    then 9000 milliseconds. *)
Lemma uptime_depends_on_clock :
  Metric.callGetValue MetricUptime exampleClock exampleRecentContainer
    exampleStats
  ≠ Metric.callGetValue MetricUptime exampleLaterClock exampleRecentContainer
      exampleStats.
Proof. intros Heq. vm_compute in Heq. discriminate Heq. Qed.

Example uptime_at_two_readings :
  MetricValue.IntValue
    <$> Metric.callGetValue MetricUptime exampleClock exampleRecentContainer
          exampleStats
  = Some 5000
  ∧ MetricValue.IntValue
      <$> Metric.callGetValue MetricUptime exampleLaterClock
            exampleRecentContainer exampleStats
    = Some 9000.
Proof. split; reflexivity. Qed.

Section Determinism.
Context {labels : LabelDeclarations}.

(** No extractor registered in [AllMetrics], the [GetValue] of "uptime"
    apart, reads the clock. *)
Lemma extractors_ignore_clock :
  Forall
    (λ m, Metric.Name m ≠ "uptime" →
          ∀ now1 now2 c stat,
            Metric.callGetValue m now1 c stat = Metric.callGetValue m now2 c stat
            ∧ Metric.callGetLabeledMetric m now1 c stat
              = Metric.callGetLabeledMetric m now2 c stat)
    AllMetrics.
Proof.
  repeat (apply Forall_cons_2 || apply Forall_nil_2);
    intros Hname;
    first [ by exfalso; apply Hname | intros; split; reflexivity ].
Qed.

(** C4, as the code has it. Take two calls, each at its own reading of
    the clock and, for the scan of [MetricFamilies], in its own order, on
    the same entity, the same snapshot and the same name. For every
    metric of [AllMetrics] other than "uptime", [GetValue] and
    [GetLabeledMetric] return the same result in both calls; and every
    lookup returns the same result in both calls: [MetricFamilyForName],
    [IsNodeAutoscalingMetric] and the lookup of the name in
    [RateMetricsMapping]. The [GetValue] of "uptime" reads the clock: it
    is the saturated difference between the reading of the clock and the
    creation time of the entity, in whole milliseconds. *)
Theorem extraction_and_lookup_deterministic
    (m : Metric.t) (now1 now2 : time.Time) (c1 c2 : ContainerInfo.t)
    (stat1 stat2 : ContainerStats.t)
    (order1 order2 : list (MetricFamily * list Metric.t))
    (metricName1 metricName2 : string) :
  m ∈ AllMetrics → Metric.Name m ≠ "uptime" →
  rangeOrder order1 → rangeOrder order2 →
  c1 = c2 → stat1 = stat2 → metricName1 = metricName2 →
  Metric.callGetValue m now1 c1 stat1 = Metric.callGetValue m now2 c2 stat2
  ∧ Metric.callGetLabeledMetric m now1 c1 stat1
    = Metric.callGetLabeledMetric m now2 c2 stat2
  ∧ MetricFamilyForName order1 metricName1
    = MetricFamilyForName order2 metricName2
  ∧ IsNodeAutoscalingMetric metricName1 = IsNodeAutoscalingMetric metricName2
  ∧ RateMetricsMapping !! metricName1 = RateMetricsMapping !! metricName2
  ∧ Metric.callGetValue MetricUptime now1 c1 stat1
    = Some {| MetricValue.ValueType := ValueInt64;
              MetricValue.MetricType := MetricCumulative;
              MetricValue.FloatValue := 0;
              MetricValue.IntValue :=
                time.Sub now1
                  (ContainerSpec.CreationTime (ContainerInfo.Spec c1))
                `quot` 1000000 |}.
Proof.
  intros Hin Hname Horder1 Horder2 <- <- <-.
  pose proof extractors_ignore_clock as Hall.
  rewrite Forall_forall in Hall.
  destruct (Hall m Hin Hname now1 now2 c1 stat1) as [Hvalue Hlabeled].
  split; [exact Hvalue |]. split; [exact Hlabeled |].
  split; [by apply MetricFamilyForName_order |].
  repeat split.
Qed.

End Determinism.

Section DeterminismExamples.
Existing Instance exampleLabels.

Lemma extraction_and_lookup_deterministic_witness :
  MetricCpuUsage ∈ AllMetrics
  ∧ Metric.Name MetricCpuUsage ≠ "uptime"
  ∧ rangeOrder MetricFamilies
  ∧ rangeOrder exampleOrder
  ∧ Metric.callGetValue MetricCpuUsage exampleClock exampleRecentContainer
      exampleStats
    = Metric.callGetValue MetricCpuUsage exampleLaterClock
        exampleRecentContainer exampleStats
  ∧ MetricFamilyForName MetricFamilies "network/tx"
    = MetricFamilyForName exampleOrder "network/tx"
  ∧ IsNodeAutoscalingMetric "network/tx" = IsNodeAutoscalingMetric "network/tx"
  ∧ RateMetricsMapping !! "network/tx" = RateMetricsMapping !! "network/tx".
Proof.
  assert (MetricCpuUsage ∈ AllMetrics) as Hin by repeat constructor.
  assert (Metric.Name MetricCpuUsage ≠ "uptime") as Hname by discriminate.
  assert (rangeOrder MetricFamilies) as Horder1
    by (unfold rangeOrder; reflexivity).
  assert (rangeOrder exampleOrder) as Horder2 by apply reverse_Permutation.
  repeat (split; [assumption |]).
  destruct (extraction_and_lookup_deterministic
              MetricCpuUsage exampleClock exampleLaterClock
              exampleRecentContainer exampleRecentContainer
              exampleStats exampleStats
              MetricFamilies exampleOrder "network/tx" "network/tx"
              Hin Hname Horder1 Horder2 eq_refl eq_refl eq_refl)
    as (Hvalue & _ & Hfamily & Hnode & Hrate & _).
  split; [exact Hvalue |]. split; [exact Hfamily |].
  split; [exact Hnode | exact Hrate].
Defined.

(** The two lookups at that name: it is no autoscaling metric, and its
    rate metric is "network/tx_rate". *)
Example lookups_at_network_tx :
  IsNodeAutoscalingMetric "network/tx" = false
  ∧ Metric.Name <$> RateMetricsMapping !! "network/tx" = Some "network/tx_rate".
Proof. split; reflexivity. Qed.

End DeterminismExamples.

(** ** Labeled extraction *)

(** The loop that appends one element per record builds the image of the
    records, in their order. *)
Lemma foldl_snoc {A B : Type} (f : B → A) (l : list B) (acc : list A) :
  foldl (λ result x, result ++ [f x]) acc l = acc ++ (f <$> l).
Proof.
  revert acc. induction l as [| x l IH]; intros acc; simpl.
  - by rewrite app_nil_r.
  - rewrite IH. by rewrite <- app_assoc.
Qed.

(** The loop that appends only for the records that pass a test builds
    the image of the records that pass it. *)
Lemma foldl_snoc_if {A B : Type} (p : B → bool) (f : B → A)
    (l : list B) (acc : list A) :
  foldl (λ result x, if p x then result ++ [f x] else result) acc l
  = acc ++ (f <$> filter (λ x, p x) l).
Proof.
  revert acc. induction l as [| x l IH]; intros acc; simpl.
  - by rewrite app_nil_r.
  - rewrite IH. destruct (p x) eqn:Hp.
    + rewrite filter_cons_True by (simpl; rewrite Hp; exact I). simpl.
      by rewrite <- app_assoc.
    + rewrite filter_cons_False by (simpl; rewrite Hp; intros []). done.
Qed.

Section LabeledExtraction.
Context {labels : LabelDeclarations}.

(** The label and the value that the two disk extractors emit for one
    partition record, given the operation they look up. *)
Lemma disk_io_lookup (m : Metric.t) (operation : string) (now : time.Time)
    (info : ContainerInfo.t) (stat : ContainerStats.t)
    (i : nat) (partition : PerDiskStats.t) :
  (m = MetricDiskIORead ∧ operation = "Read")
  ∨ (m = MetricDiskIOWrite ∧ operation = "Write") →
  DiskIoStats.IoServiceBytes (ContainerStats.DiskIo stat) !! i = Some partition →
  ∃ result lm,
    Metric.callGetLabeledMetric m now info stat = Some result
    ∧ length result
      = length (DiskIoStats.IoServiceBytes (ContainerStats.DiskIo stat))
    ∧ result !! i = Some lm
    ∧ LabeledMetric.Name lm = Metric.Name m
    ∧ LabeledMetric.Labels lm
      = {[ LabelDescriptor.Key LabelResourceID :=
             if String.eqb (PerDiskStats.Device partition) ""
             then fmt.Sprintf_d_colon_d (PerDiskStats.Major partition)
                    (PerDiskStats.Minor partition)
             else PerDiskStats.Device partition ]}
    ∧ LabeledMetric.MetricValue lm
      = {| MetricValue.ValueType := ValueInt64;
           MetricValue.MetricType := MetricGauge;
           MetricValue.FloatValue := 0;
           MetricValue.IntValue :=
             Go.int64 (default 0 (PerDiskStats.Stats partition !! operation)) |}.
Proof.
  intros [[-> ->] | [-> ->]] Hpartition;
    (eexists; eexists; split; [reflexivity |]);
    cbv zeta; rewrite !foldl_snoc; simpl;
    rewrite length_fmap, list_lookup_fmap, Hpartition; simpl;
    (split; [done |]); (split; [reflexivity |]);
    (split; [done |]); (split; [done |]);
    by destruct (PerDiskStats.Stats partition !! _).
Qed.

Lemma cardinality_intro (call : option (list LabeledMetric.t))
    (result : list LabeledMetric.t) (qualifying : nat) :
  call = Some result → length result = qualifying →
  ∃ result, call = Some result ∧ length result = qualifying
            ∧ (qualifying = 0%nat → result = []).
Proof.
  intros Hcall Hlen. exists result. split; [done |]. split; [done |].
  intros Hzero. rewrite Hzero in Hlen. by apply nil_length_inv.
Qed.

(** C5. On every snapshot, each labeled extractor returns a sequence with
    one result per qualifying instance: for "filesystem/inodes" and
    "filesystem/inodes_free" the filesystem records that report inode
    support, the others being skipped; for the other filesystem metrics
    every filesystem record; for the disk metrics every partition record;
    for the accelerator metrics every accelerator record. With no
    qualifying instance the sequence is empty; the call never fails. *)
Theorem labeled_cardinality (now : time.Time) (c : ContainerInfo.t)
    (stat : ContainerStats.t) :
  let inodeFilesystems :=
    filter (λ fs, FsStats.HasInodes fs) (ContainerStats.Filesystem stat) in
  let partitions := DiskIoStats.IoServiceBytes (ContainerStats.DiskIo stat) in
  Forall
    (λ '(m, qualifying),
       ∃ result, Metric.callGetLabeledMetric m now c stat = Some result
                 ∧ length result = qualifying
                 ∧ (qualifying = 0%nat → result = []))
    [ (MetricFilesystemInodes, length inodeFilesystems);
      (MetricFilesystemInodesFree, length inodeFilesystems);
      (MetricFilesystemUsage, length (ContainerStats.Filesystem stat));
      (MetricFilesystemLimit, length (ContainerStats.Filesystem stat));
      (MetricDiskIORead, length partitions);
      (MetricDiskIOWrite, length partitions);
      (MetricAcceleratorMemoryTotal, length (ContainerStats.Accelerators stat));
      (MetricAcceleratorMemoryUsed, length (ContainerStats.Accelerators stat));
      (MetricAcceleratorDutyCycle, length (ContainerStats.Accelerators stat)) ].
Proof.
  intros inodeFilesystems partitions.
  repeat (apply Forall_cons_2 || apply Forall_nil_2);
    (eapply cardinality_intro; [reflexivity |]);
    rewrite ?foldl_snoc, ?foldl_snoc_if; simpl; by rewrite length_fmap.
Qed.

(** C6. For the partition record at any position of the snapshot, the
    result at that position of "disk/io_read_bytes" carries the count
    stored under "Read" in the operation map of the record, and the one
    of "disk/io_write_bytes" the count stored under "Write", each
    converted to [int64]; a missing key gives 0, the call does not fail.
    For a map that holds only ["Write": 500] the two values are 0 and
    500. *)
Theorem disk_io_demultiplex (now : time.Time) (info : ContainerInfo.t)
    (stat : ContainerStats.t) (i : nat) (partition : PerDiskStats.t) :
  DiskIoStats.IoServiceBytes (ContainerStats.DiskIo stat) !! i = Some partition →
  ∃ reads writes read write,
    Metric.callGetLabeledMetric MetricDiskIORead now info stat = Some reads
    ∧ reads !! i = Some read
    ∧ Metric.callGetLabeledMetric MetricDiskIOWrite now info stat = Some writes
    ∧ writes !! i = Some write
    ∧ MetricValue.IntValue (LabeledMetric.MetricValue read)
      = Go.int64 (default 0 (PerDiskStats.Stats partition !! "Read"))
    ∧ MetricValue.IntValue (LabeledMetric.MetricValue write)
      = Go.int64 (default 0 (PerDiskStats.Stats partition !! "Write"))
    ∧ (PerDiskStats.Stats partition !! "Read" = None →
       MetricValue.IntValue (LabeledMetric.MetricValue read) = 0)
    ∧ (PerDiskStats.Stats partition !! "Write" = None →
       MetricValue.IntValue (LabeledMetric.MetricValue write) = 0)
    ∧ (PerDiskStats.Stats partition = {[ "Write" := 500 ]} →
       MetricValue.IntValue (LabeledMetric.MetricValue read) = 0
       ∧ MetricValue.IntValue (LabeledMetric.MetricValue write) = 500).
Proof.
  intros Hpartition.
  destruct (disk_io_lookup MetricDiskIORead "Read" now info stat i partition)
    as (reads & read & Hreads & _ & Hread & _ & _ & Hrv); [by left | done |].
  destruct (disk_io_lookup MetricDiskIOWrite "Write" now info stat i partition)
    as (writes & write & Hwrites & _ & Hwrite & _ & _ & Hwv); [by right | done |].
  exists reads, writes, read, write.
  rewrite Hrv, Hwv. simpl.
  repeat (split; [done |]). split; [| split].
  - by intros ->.
  - by intros ->.
  - by intros ->.
Qed.

(** C9. For a partition record whose device name is the empty string,
    the "resource_id" label of the result that either disk extractor
    emits for it is "<major>:<minor>", the decimal major number, a colon
    and the decimal minor number of the record; the call does not fail.
    With major 8 and minor 1 the label is "8:1". *)
Theorem disk_fallback_key (now : time.Time) (info : ContainerInfo.t)
    (stat : ContainerStats.t) (i : nat) (partition : PerDiskStats.t) :
  DiskIoStats.IoServiceBytes (ContainerStats.DiskIo stat) !! i = Some partition →
  PerDiskStats.Device partition = "" →
  ∃ reads writes read write,
    Metric.callGetLabeledMetric MetricDiskIORead now info stat = Some reads
    ∧ reads !! i = Some read
    ∧ Metric.callGetLabeledMetric MetricDiskIOWrite now info stat = Some writes
    ∧ writes !! i = Some write
    ∧ LabeledMetric.Labels read !! LabelDescriptor.Key LabelResourceID
      = Some (fmt.Sprintf_d_colon_d (PerDiskStats.Major partition)
                (PerDiskStats.Minor partition))
    ∧ LabeledMetric.Labels write !! LabelDescriptor.Key LabelResourceID
      = Some (fmt.Sprintf_d_colon_d (PerDiskStats.Major partition)
                (PerDiskStats.Minor partition))
    ∧ (PerDiskStats.Major partition = 8 → PerDiskStats.Minor partition = 1 →
       LabeledMetric.Labels read !! LabelDescriptor.Key LabelResourceID
       = Some "8:1"
       ∧ LabeledMetric.Labels write !! LabelDescriptor.Key LabelResourceID
         = Some "8:1").
Proof.
  intros Hpartition Hdevice.
  destruct (disk_io_lookup MetricDiskIORead "Read" now info stat i partition)
    as (reads & read & Hreads & _ & Hread & _ & Hrl & _); [by left | done |].
  destruct (disk_io_lookup MetricDiskIOWrite "Write" now info stat i partition)
    as (writes & write & Hwrites & _ & Hwrite & _ & Hwl & _); [by right | done |].
  exists reads, writes, read, write.
  rewrite Hrl, Hwl, Hdevice, !lookup_singleton_eq. simpl.
  repeat (split; [done |]).
  by intros -> ->.
Qed.

(** C10. The descriptors of "disk/io_read_bytes" and "disk/io_write_bytes"
    declare the kind cumulative, and on every snapshot every result that
    their extractors emit carries a value of kind gauge: the kind of the
    emitted value differs from the kind of the descriptor. *)
Theorem disk_io_emitted_kind (now : time.Time) (info : ContainerInfo.t)
    (stat : ContainerStats.t) :
  Forall
    (λ m,
       Metric.Type_ m = MetricCumulative
       ∧ ∃ result,
           Metric.callGetLabeledMetric m now info stat = Some result
           ∧ Forall
               (λ lm,
                  MetricValue.MetricType (LabeledMetric.MetricValue lm)
                  = MetricGauge
                  ∧ MetricValue.MetricType (LabeledMetric.MetricValue lm)
                    ≠ Metric.Type_ m)
               result)
    [ MetricDiskIORead; MetricDiskIOWrite ].
Proof.
  repeat (apply Forall_cons_2 || apply Forall_nil_2);
    (split; [reflexivity |]); (eexists; split; [reflexivity |]);
    cbv zeta; rewrite foldl_snoc; simpl;
    apply Forall_fmap, Forall_forall; intros partition _; simpl; by split.
Qed.

End LabeledExtraction.

Section LabeledExtractionExamples.
Existing Instance exampleLabels.

Lemma labeled_cardinality_witness :
  (∃ result,
      Metric.callGetLabeledMetric MetricFilesystemInodes 5000000
        exampleContainer exampleStats = Some result
      ∧ length result = 2%nat)
  ∧ length (ContainerStats.Accelerators exampleStats) = 0%nat
  ∧ Metric.callGetLabeledMetric MetricAcceleratorMemoryTotal 5000000
      exampleContainer exampleStats = Some [].
Proof.
  pose proof (labeled_cardinality 5000000 exampleContainer exampleStats) as Hall.
  simpl in Hall. split; [| split; [reflexivity |]].
  - destruct (Forall_lookup_1 _ _ 0%nat _ Hall eq_refl)
      as (result & Hcall & Hlen & _).
    exists result. by split.
  - destruct (Forall_lookup_1 _ _ 6%nat _ Hall eq_refl)
      as (result & Hcall & _ & Hempty).
    by rewrite Hcall, (Hempty eq_refl).
Defined.

Lemma disk_io_demultiplex_witness :
  DiskIoStats.IoServiceBytes (ContainerStats.DiskIo exampleStats) !! 0%nat
  = Some examplePartition
  ∧ PerDiskStats.Stats examplePartition = {[ "Write" := 500 ]}
  ∧ ∃ reads writes read write,
      Metric.callGetLabeledMetric MetricDiskIORead 5000000 exampleContainer
        exampleStats = Some reads
      ∧ reads !! 0%nat = Some read
      ∧ Metric.callGetLabeledMetric MetricDiskIOWrite 5000000 exampleContainer
          exampleStats = Some writes
      ∧ writes !! 0%nat = Some write
      ∧ MetricValue.IntValue (LabeledMetric.MetricValue read) = 0
      ∧ MetricValue.IntValue (LabeledMetric.MetricValue write) = 500.
Proof.
  split; [reflexivity |]. split; [reflexivity |].
  destruct (disk_io_demultiplex 5000000 exampleContainer exampleStats 0%nat
              examplePartition eq_refl)
    as (reads & writes & read & write & Hreads & Hread & Hwrites & Hwrite
        & _ & _ & _ & _ & Hvalues).
  exists reads, writes, read, write.
  repeat (split; [assumption |]). exact (Hvalues eq_refl).
Defined.

Lemma disk_fallback_key_witness :
  DiskIoStats.IoServiceBytes (ContainerStats.DiskIo exampleStats) !! 0%nat
  = Some examplePartition
  ∧ PerDiskStats.Device examplePartition = ""
  ∧ PerDiskStats.Major examplePartition = 8
  ∧ PerDiskStats.Minor examplePartition = 1
  ∧ ∃ reads writes read write,
      Metric.callGetLabeledMetric MetricDiskIORead 5000000 exampleContainer
        exampleStats = Some reads
      ∧ reads !! 0%nat = Some read
      ∧ Metric.callGetLabeledMetric MetricDiskIOWrite 5000000 exampleContainer
          exampleStats = Some writes
      ∧ writes !! 0%nat = Some write
      ∧ LabeledMetric.Labels read !! "resource_id" = Some "8:1"
      ∧ LabeledMetric.Labels write !! "resource_id" = Some "8:1".
Proof.
  repeat (split; [reflexivity |]).
  destruct (disk_fallback_key 5000000 exampleContainer exampleStats 0%nat
              examplePartition eq_refl eq_refl)
    as (reads & writes & read & write & Hreads & Hread & Hwrites & Hwrite
        & _ & _ & Hlabels).
  exists reads, writes, read, write.
  repeat (split; [assumption |]). exact (Hlabels eq_refl eq_refl).
Defined.

End LabeledExtractionExamples.

(** ** The rate mapping *)

Section RateMapping.
Context {labels : LabelDeclarations}.

(** The five entries of [RateMetricsMapping]. *)
Lemma RateMetricsMapping_entries (name : string) (rate : Metric.t) :
  RateMetricsMapping !! name = Some rate ↔
  (name = "cpu/usage" ∧ rate = MetricCpuUsageRate)
  ∨ (name = "network/rx" ∧ rate = MetricNetworkRxRate)
  ∨ (name = "network/tx" ∧ rate = MetricNetworkTxRate)
  ∨ (name = "disk/io_read_bytes" ∧ rate = MetricDiskIOReadRate)
  ∨ (name = "disk/io_write_bytes" ∧ rate = MetricDiskIOWriteRate).
Proof.
  unfold RateMetricsMapping. rewrite !lookup_insert_Some, lookup_empty.
  change (Metric.Name MetricDiskIOWrite) with "disk/io_write_bytes".
  change (Metric.Name MetricDiskIORead) with "disk/io_read_bytes".
  change (Metric.Name MetricNetworkTx) with "network/tx".
  change (Metric.Name MetricNetworkRx) with "network/rx".
  change (Metric.Name MetricCpuUsage) with "cpu/usage".
  split.
  - intros [[<- <-] | [? [[<- <-] | [? [[<- <-] | [? [[<- <-] | [? [[<- <-] | [? ?]]]]]]]]]];
      try discriminate; tauto.
  - intros [[-> ->] | [[-> ->] | [[-> ->] | [[-> ->] | [-> ->]]]]];
      repeat first [ by left | right; split; [done |] ].
Qed.

(** C8. Every name in the domain of the rate mapping resolves to a metric
    of [RateMetrics], and two different names of the domain resolve to
    rate metrics with different names: no two keys map to the same rate
    metric. *)
Theorem RateMetricsMapping_total_injective (name1 name2 : string) :
  name1 ∈ dom RateMetricsMapping → name2 ∈ dom RateMetricsMapping →
  name1 ≠ name2 →
  ∃ rate1 rate2,
    RateMetricsMapping !! name1 = Some rate1
    ∧ RateMetricsMapping !! name2 = Some rate2
    ∧ rate1 ∈ RateMetrics ∧ rate2 ∈ RateMetrics
    ∧ Metric.Name rate1 ≠ Metric.Name rate2
    ∧ rate1 ≠ rate2.
Proof.
  intros [rate1 Hrate1]%elem_of_dom [rate2 Hrate2]%elem_of_dom Hne.
  exists rate1, rate2. split; [done |]. split; [done |].
  apply RateMetricsMapping_entries in Hrate1, Hrate2.
  assert (rate1 ∈ RateMetrics ∧ rate2 ∈ RateMetrics
          ∧ Metric.Name rate1 ≠ Metric.Name rate2) as (Hin1 & Hin2 & Hnames).
  { destruct Hrate1 as [[-> ->] | [[-> ->] | [[-> ->] | [[-> ->] | [-> ->]]]]];
      destruct Hrate2 as [[-> ->] | [[-> ->] | [[-> ->] | [[-> ->] | [-> ->]]]]];
      try (by destruct Hne);
      (split; [repeat constructor |]); (split; [repeat constructor |]);
      discriminate. }
  repeat (split; [done |]). by intros ->.
Qed.

End RateMapping.

Section RateMappingExamples.
Existing Instance exampleLabels.

Lemma RateMetricsMapping_total_injective_witness :
  "cpu/usage" ∈ dom RateMetricsMapping
  ∧ "disk/io_read_bytes" ∈ dom RateMetricsMapping
  ∧ "cpu/usage" ≠ "disk/io_read_bytes"
  ∧ ∃ rate1 rate2,
      RateMetricsMapping !! "cpu/usage" = Some rate1
      ∧ RateMetricsMapping !! "disk/io_read_bytes" = Some rate2
      ∧ Metric.Name rate1 ≠ Metric.Name rate2.
Proof.
  assert ("cpu/usage" ∈ dom RateMetricsMapping) as Hdom1
    by (apply elem_of_dom; eexists; reflexivity).
  assert ("disk/io_read_bytes" ∈ dom RateMetricsMapping) as Hdom2
    by (apply elem_of_dom; eexists; reflexivity).
  assert ("cpu/usage" ≠ "disk/io_read_bytes") as Hne by discriminate.
  repeat (split; [assumption |]).
  destruct (RateMetricsMapping_total_injective _ _ Hdom1 Hdom2 Hne)
    as (rate1 & rate2 & Hrate1 & Hrate2 & _ & _ & Hnames & _).
  exists rate1, rate2. by repeat split.
Defined.

Example RateMetricsMapping_lookups :
  Metric.Name <$> RateMetricsMapping !! "network/rx" = Some "network/rx_rate"
  ∧ Metric.Name <$> RateMetricsMapping !! "memory/usage" = None.
Proof. split; reflexivity. Qed.

End RateMappingExamples.

(** * Further properties of the extractors and of the registries *)

Local Open Scope Z_scope.

(** ** The conversion to [int64] *)

Lemma int64_range (x : Z) : - 2 ^ 63 ≤ Go.int64 x < 2 ^ 63.
Proof.
  unfold Go.int64.
  pose proof (Z.mod_pos_bound (x + 2 ^ 63) (2 ^ 64) eq_refl). lia.
Qed.

Lemma int64_small (x : Z) : - 2 ^ 63 ≤ x < 2 ^ 63 → Go.int64 x = x.
Proof. intros Hx. unfold Go.int64. rewrite Z.mod_small; lia. Qed.

Lemma int64_high (x : Z) : 2 ^ 63 ≤ x < 2 ^ 64 → Go.int64 x = x - 2 ^ 64.
Proof.
  intros Hx. unfold Go.int64.
  replace (x + 2 ^ 63) with (x - 2 ^ 63 + 1 * 2 ^ 64) by lia.
  rewrite Z.mod_add by lia. rewrite Z.mod_small; lia.
Qed.

Lemma int64_add_l (a b : Z) : Go.int64 (Go.int64 a + b) = Go.int64 (a + b).
Proof.
  unfold Go.int64. f_equal.
  replace ((a + 2 ^ 63) `mod` 2 ^ 64 - 2 ^ 63 + b + 2 ^ 63)
    with ((a + 2 ^ 63) `mod` 2 ^ 64 + b) by lia.
  rewrite Zplus_mod_idemp_l. f_equal. lia.
Qed.

Lemma int64_add_r (a b : Z) : Go.int64 (a + Go.int64 b) = Go.int64 (a + b).
Proof. rewrite (Z.add_comm a), int64_add_l. f_equal. lia. Qed.

Lemma int64_cases (raw : Z) :
  (0 ≤ raw < 2 ^ 63 → Go.int64 raw = raw)
  ∧ (2 ^ 63 ≤ raw < 2 ^ 64 → Go.int64 raw = raw - 2 ^ 64).
Proof.
  split; intros Hraw; [apply int64_small; lia | by apply int64_high].
Qed.

(** ** Scalar extraction on an individual unit *)

(** X1. On an entity that is not a node, each of the seven gated metrics
    that read one field returns that field converted to [int64]: the field
    itself while it is below 2^63, and the field less 2^64, a negative
    number, for an unsigned counter from 2^63 on. *)
Theorem scalar_individual_passthrough (now : time.Time) (c : ContainerInfo.t)
    (stat : ContainerStats.t) :
  metrics.IsNode c = false →
  let memory := ContainerStats.Memory stat in
  Forall
    (λ '(m, raw),
       ∃ v, Metric.callGetValue m now c stat = Some v
            ∧ MetricValue.IntValue v = Go.int64 raw
            ∧ (0 ≤ raw < 2 ^ 63 → MetricValue.IntValue v = raw)
            ∧ (2 ^ 63 ≤ raw < 2 ^ 64 → MetricValue.IntValue v = raw - 2 ^ 64))
    [ (MetricCpuUsage,
       CpuUsage.Total (CpuStats.Usage (ContainerStats.Cpu stat)));
      (MetricMemoryUsage, MemoryStats.Usage memory);
      (MetricMemoryCache, MemoryStats.Cache memory);
      (MetricMemoryRSS, MemoryStats.RSS memory);
      (MetricMemoryWorkingSet, MemoryStats.WorkingSet memory);
      (MetricMemoryPageFaults,
       MemoryStatsMemoryData.Pgfault (MemoryStats.ContainerData memory));
      (MetricMemoryMajorPageFaults,
       MemoryStatsMemoryData.Pgmajfault (MemoryStats.ContainerData memory)) ].
Proof.
  intros Hnode memory.
  repeat (apply Forall_cons_2 || apply Forall_nil_2);
    (eexists; split; [reflexivity |]); cbn; rewrite Hnode; cbn;
    (split; [reflexivity | apply int64_cases]).
Qed.

Lemma scalar_individual_passthrough_witness :
  metrics.IsNode exampleContainer = false
  ∧ (∃ v, Metric.callGetValue MetricMemoryUsage 5000000 exampleContainer
            exampleDeviceStats = Some v
          ∧ MetricValue.IntValue v = 1048576)
  ∧ (∃ v, Metric.callGetValue MetricCpuUsage 5000000 exampleContainer
            exampleDeviceStats = Some v
          ∧ MetricValue.IntValue v = 5 - 2 ^ 63).
Proof.
  split; [reflexivity |].
  pose proof (scalar_individual_passthrough 5000000 exampleContainer
                exampleDeviceStats eq_refl) as Hall.
  simpl in Hall. split.
  - destruct (Forall_lookup_1 _ _ 1%nat _ Hall eq_refl)
      as (v & Hcall & _ & Hsmall & _).
    exists v. split; [exact Hcall |]. apply Hsmall. by vm_compute.
  - destruct (Forall_lookup_1 _ _ 0%nat _ Hall eq_refl)
      as (v & Hcall & _ & _ & Hhigh).
    exists v. split; [exact Hcall |]. rewrite Hhigh by (by vm_compute).
    reflexivity.
Defined.

(** The wrapping total of the loop is the exact total, converted once. *)
Lemma sumInterfaces_total (field : InterfaceStats.t → Z)
    (ifs : list InterfaceStats.t) :
  sumInterfaces field ifs = Go.int64 (foldr Z.add 0 (field <$> ifs)).
Proof.
  unfold sumInterfaces.
  assert (∀ acc,
    foldl (λ total interfaceStat,
             Go.add64 total (Go.int64 (field interfaceStat)))
      (Go.int64 acc) ifs
    = Go.int64 (acc + foldr Z.add 0 (field <$> ifs))) as Hacc.
  { induction ifs as [| x ifs IH]; intros acc; simpl.
    - by rewrite Z.add_0_r.
    - unfold Go.add64 at 2. rewrite int64_add_l, int64_add_r, IH.
      f_equal. change (list_fmap _ _ field ifs) with (field <$> ifs). lia. }
  exact (Hacc 0).
Qed.

Lemma total_Permutation (xs ys : list Z) :
  xs ≡ₚ ys → foldr Z.add 0 xs = foldr Z.add 0 ys.
Proof. induction 1; simpl; lia. Qed.

(** X2. On an entity that is not a node, each of the four network metrics
    returns the total of its field over the interfaces of the snapshot,
    converted to [int64]: the wrap-around of the additions of the loop
    amounts to one conversion of the exact total. The value is the exact
    total while that fits an [int64], and 0 without interfaces. *)
Theorem network_totals (now : time.Time) (c : ContainerInfo.t)
    (stat : ContainerStats.t) :
  metrics.IsNode c = false →
  let ifs := NetworkStats.Interfaces (ContainerStats.Network stat) in
  Forall
    (λ '(m, field),
       let total := foldr Z.add 0 (field <$> ifs) in
       ∃ v, Metric.callGetValue m now c stat = Some v
            ∧ MetricValue.IntValue v = Go.int64 total
            ∧ (- 2 ^ 63 ≤ total < 2 ^ 63 → MetricValue.IntValue v = total)
            ∧ (ifs = [] → MetricValue.IntValue v = 0))
    [ (MetricNetworkRx, InterfaceStats.RxBytes);
      (MetricNetworkRxErrors, InterfaceStats.RxErrors);
      (MetricNetworkTx, InterfaceStats.TxBytes);
      (MetricNetworkTxErrors, InterfaceStats.TxErrors) ].
Proof.
  intros Hnode ifs.
  repeat (apply Forall_cons_2 || apply Forall_nil_2);
    (eexists; split; [reflexivity |]); cbn; rewrite Hnode; cbn;
    rewrite sumInterfaces_total; fold ifs;
    (split; [reflexivity |]);
    (split; [apply int64_small | by intros ->]).
Qed.

Lemma network_totals_witness :
  metrics.IsNode exampleContainer = false
  ∧ ∃ v, Metric.callGetValue MetricNetworkRx 5000000 exampleContainer
           exampleStats = Some v
         ∧ MetricValue.IntValue v = 150.
Proof.
  split; [reflexivity |].
  pose proof (network_totals 5000000 exampleContainer exampleStats eq_refl)
    as Hall.
  simpl in Hall.
  destruct (Forall_lookup_1 _ _ 0%nat _ Hall eq_refl)
    as (v & Hcall & _ & Hexact & _).
  exists v. split; [exact Hcall |]. apply Hexact. by vm_compute.
Defined.

(** X3. The four network metrics do not depend on the order of the
    interfaces in the snapshot: two snapshots whose interface lists are
    arrangements of each other give the same value, on a node or not. *)
Theorem network_totals_order_independent (now : time.Time)
    (c : ContainerInfo.t) (stat1 stat2 : ContainerStats.t) :
  NetworkStats.Interfaces (ContainerStats.Network stat1)
  ≡ₚ NetworkStats.Interfaces (ContainerStats.Network stat2) →
  Forall
    (λ m, Metric.callGetValue m now c stat1 = Metric.callGetValue m now c stat2)
    [ MetricNetworkRx; MetricNetworkRxErrors; MetricNetworkTx;
      MetricNetworkTxErrors ].
Proof.
  intros Hperm.
  repeat (apply Forall_cons_2 || apply Forall_nil_2);
    cbn; (destruct (metrics.IsNode c); cbn; [reflexivity |]);
    rewrite !sumInterfaces_total; do 3 f_equal;
    by apply total_Permutation, fmap_Permutation.
Qed.

Lemma network_totals_order_independent_witness :
  NetworkStats.Interfaces (ContainerStats.Network exampleStats)
  ≡ₚ NetworkStats.Interfaces (ContainerStats.Network exampleDeviceStats)
  ∧ Metric.callGetValue MetricNetworkTx 5000000 exampleContainer exampleStats
    = Metric.callGetValue MetricNetworkTx 5000000 exampleContainer
        exampleDeviceStats.
Proof.
  assert (NetworkStats.Interfaces (ContainerStats.Network exampleStats)
          ≡ₚ NetworkStats.Interfaces (ContainerStats.Network exampleDeviceStats))
    as Hperm by apply perm_swap.
  split; [exact Hperm |].
  pose proof (network_totals_order_independent 5000000 exampleContainer
                exampleStats exampleDeviceStats Hperm) as Hall.
  exact (Forall_lookup_1 _ _ 2%nat _ Hall eq_refl).
Defined.

(** ** Uptime *)

Lemma Sub_cases (t u : time.Time) :
  ((t - u < - 9223372036854775808)%Z
   ∧ time.Sub t u = - 9223372036854775808)
  ∨ ((9223372036854775807 < t - u)%Z
     ∧ time.Sub t u = 9223372036854775807)
  ∨ ((- 9223372036854775808 ≤ t - u ≤ 9223372036854775807)%Z
     ∧ time.Sub t u = t - u).
Proof.
  unfold time.Sub, time.minDuration, time.maxDuration.
  change (- 2 ^ 63) with (- 9223372036854775808).
  change (2 ^ 63 - 1) with 9223372036854775807.
  destruct (Z.ltb_spec (t - u) (- 9223372036854775808)); [left; lia |].
  destruct (Z.ltb_spec 9223372036854775807 (t - u)); right; [left | right]; lia.
Qed.

Lemma Sub_monotone (t1 t2 u : time.Time) :
  t1 ≤ t2 → time.Sub t1 u ≤ time.Sub t2 u.
Proof.
  intros Hle.
  destruct (Sub_cases t1 u) as [[? ->] | [[? ->] | [? ->]]];
    destruct (Sub_cases t2 u) as [[? ->] | [[? ->] | [? ->]]]; lia.
Qed.

(** X4. While the clock is not before the creation time of the entity and
    no more than the largest duration after it, the uptime is the elapsed
    time in whole milliseconds, rounded down: it is not negative, and the
    elapsed nanoseconds lie from that many milliseconds up to, but not
    including, one millisecond more. *)
Theorem uptime_truncates (now : time.Time) (c : ContainerInfo.t)
    (stat : ContainerStats.t) :
  let created := ContainerSpec.CreationTime (ContainerInfo.Spec c) in
  0 ≤ now - created ≤ time.maxDuration →
  ∃ v, Metric.callGetValue MetricUptime now c stat = Some v
       ∧ 0 ≤ MetricValue.IntValue v
       ∧ MetricValue.IntValue v * 1000000 ≤ now - created
         < (MetricValue.IntValue v + 1) * 1000000.
Proof.
  intros created Helapsed. eexists. split; [reflexivity |]. cbn.
  unfold time.Since, time.Nanoseconds, time.Millisecond. fold created.
  unfold time.maxDuration in Helapsed.
  change (2 ^ 63 - 1) with 9223372036854775807 in Helapsed.
  destruct (Sub_cases now created) as [[? _] | [[? _] | [_ ->]]]; [lia.. |].
  pose proof (Z.quot_pos (now - created) 1000000).
  pose proof (Z.mul_quot_le (now - created) 1000000).
  pose proof (Z.mul_succ_quot_gt (now - created) 1000000).
  lia.
Qed.

Lemma uptime_truncates_witness :
  0 ≤ 5999999 - ContainerSpec.CreationTime (ContainerInfo.Spec exampleContainer)
    ≤ time.maxDuration
  ∧ ∃ v, Metric.callGetValue MetricUptime 5999999 exampleContainer exampleStats
         = Some v
         ∧ MetricValue.IntValue v = 4.
Proof.
  assert (0 ≤ 5999999
               - ContainerSpec.CreationTime (ContainerInfo.Spec exampleContainer)
            ≤ time.maxDuration) as Helapsed by (by vm_compute).
  split; [exact Helapsed |].
  destruct (uptime_truncates 5999999 exampleContainer exampleStats Helapsed)
    as (v & Hcall & Hpos & Hlow & Hhigh).
  exists v. split; [exact Hcall |].
  change (ContainerSpec.CreationTime (ContainerInfo.Spec exampleContainer))
    with 1000000 in Hlow, Hhigh.
  lia.
Defined.

(** X5. The uptime of an entity does not decrease as the clock advances:
    a later reading of the clock gives a value at least as large,
    whatever the snapshots. *)
Theorem uptime_monotone (now1 now2 : time.Time) (c : ContainerInfo.t)
    (stat1 stat2 : ContainerStats.t) :
  now1 ≤ now2 →
  ∃ v1 v2,
    Metric.callGetValue MetricUptime now1 c stat1 = Some v1
    ∧ Metric.callGetValue MetricUptime now2 c stat2 = Some v2
    ∧ MetricValue.IntValue v1 ≤ MetricValue.IntValue v2.
Proof.
  intros Hle. eexists. eexists. split; [reflexivity |].
  split; [reflexivity |]. cbn.
  unfold time.Since, time.Nanoseconds, time.Millisecond.
  apply Z.quot_le_mono; [lia |]. by apply Sub_monotone.
Qed.

Lemma uptime_monotone_witness :
  5000000 ≤ 9000000
  ∧ ∃ v1 v2,
      Metric.callGetValue MetricUptime 5000000 exampleContainer exampleStats
      = Some v1
      ∧ Metric.callGetValue MetricUptime 9000000 exampleContainer
          exampleDeviceStats = Some v2
      ∧ MetricValue.IntValue v1 ≤ MetricValue.IntValue v2.
Proof.
  assert (5000000 ≤ 9000000) as Hle by lia.
  split; [exact Hle |].
  exact (uptime_monotone 5000000 9000000 exampleContainer exampleStats
           exampleDeviceStats Hle).
Defined.

(** X6. The uptime always lies between -9223372036854 and 9223372036854
    milliseconds, because the elapsed time saturates at the smallest and
    the largest duration. It is 9223372036854 once the clock is more than
    the largest duration past the creation time, as it is for an entity
    whose creation time is the zero time, and it is not positive while
    the clock is before the creation time. *)
Theorem uptime_saturates (now : time.Time) (c : ContainerInfo.t)
    (stat : ContainerStats.t) :
  let created := ContainerSpec.CreationTime (ContainerInfo.Spec c) in
  ∃ v, Metric.callGetValue MetricUptime now c stat = Some v
       ∧ (- 9223372036854 ≤ MetricValue.IntValue v ≤ 9223372036854)%Z
       ∧ ((time.maxDuration < now - created)%Z →
          MetricValue.IntValue v = 9223372036854)
       ∧ ((now < created)%Z → MetricValue.IntValue v ≤ 0).
Proof.
  intros created. eexists. split; [reflexivity |]. cbn.
  unfold time.Since, time.Nanoseconds, time.Millisecond. fold created.
  unfold time.maxDuration. change (2 ^ 63 - 1) with 9223372036854775807.
  pose proof (Z.quot_le_mono (time.Sub now created) 9223372036854775807
                1000000 eq_refl) as Hup.
  pose proof (Z.quot_le_mono (- 9223372036854775808) (time.Sub now created)
                1000000 eq_refl) as Hdown.
  pose proof (Z.quot_le_mono (time.Sub now created) 0 1000000 eq_refl) as Hneg.
  change (9223372036854775807 `quot` 1000000) with 9223372036854 in Hup.
  change ((- 9223372036854775808) `quot` 1000000) with (- 9223372036854) in Hdown.
  change (0 `quot` 1000000) with 0 in Hneg.
  destruct (Sub_cases now created) as [[? Hsub] | [[? Hsub] | [? Hsub]]];
    rewrite Hsub in *.
  - change ((- 9223372036854775808) `quot` 1000000) with (- 9223372036854).
    split; [lia |]. split; intros; lia.
  - change (9223372036854775807 `quot` 1000000) with 9223372036854.
    split; [lia |]. split; intros; lia.
  - split; [lia |]. split; [intros; lia |]. intros Hbefore. apply Hneg. lia.
Qed.

Lemma uptime_saturates_witness :
  (time.maxDuration < 63000000000000000000 - 0)%Z
  ∧ ∃ v, Metric.callGetValue MetricUptime 63000000000000000000
           {| ContainerInfo.Spec :=
                ContainerSpec.mk 0 true true true true true;
              ContainerInfo.Aggregate := false |}
           exampleStats = Some v
         ∧ MetricValue.IntValue v = 9223372036854.
Proof.
  split; [by vm_compute |].
  destruct (uptime_saturates 63000000000000000000
              {| ContainerInfo.Spec :=
                   ContainerSpec.mk 0 true true true true true;
                 ContainerInfo.Aggregate := false |} exampleStats)
    as (v & Hcall & _ & Hsat & _).
  exists v. split; [exact Hcall |]. apply Hsat. by vm_compute.
Defined.

(** ** The shape of the registered metrics *)

Section RegisteredMetrics.
Context {labels : LabelDeclarations}.

Lemma extractor_pairs_all :
  Forall
    (λ m,
       (is_Some (Metric.HasValue m) ↔ is_Some (Metric.GetValue m))
       ∧ (is_Some (Metric.HasLabeledMetric m)
          ↔ is_Some (Metric.GetLabeledMetric m))
       ∧ ¬ (is_Some (Metric.GetValue m) ∧ is_Some (Metric.GetLabeledMetric m)))
    AllMetrics.
Proof.
  repeat (apply Forall_cons_2 || apply Forall_nil_2);
    rewrite !is_Some_alt; simpl; tauto.
Qed.

(** X7. Every metric of [AllMetrics] has its predicate and its extractor
    together or not at all, for the scalar pair and for the labeled pair,
    and never has both extractors. So a caller that finds [HasValue] set
    can call [GetValue], and one that finds [HasLabeledMetric] set can
    call [GetLabeledMetric], without calling a nil function. *)
Theorem extractor_pairs (m : Metric.t) (now : time.Time)
    (c : ContainerInfo.t) (stat : ContainerStats.t) :
  m ∈ AllMetrics →
  (is_Some (Metric.HasValue m) ↔ is_Some (Metric.GetValue m))
  ∧ (is_Some (Metric.HasLabeledMetric m) ↔ is_Some (Metric.GetLabeledMetric m))
  ∧ ¬ (is_Some (Metric.GetValue m) ∧ is_Some (Metric.GetLabeledMetric m))
  ∧ (is_Some (Metric.HasValue m) → is_Some (Metric.callGetValue m now c stat))
  ∧ (is_Some (Metric.HasLabeledMetric m) →
     is_Some (Metric.callGetLabeledMetric m now c stat)).
Proof.
  intros Hin. pose proof extractor_pairs_all as Hall.
  rewrite Forall_forall in Hall.
  destruct (Hall m Hin) as (Hscalar & Hlabeled & Hone).
  repeat (split; [assumption |]). split.
  - intros [f Hf]%Hscalar. unfold Metric.callGetValue. rewrite Hf. by eexists.
  - intros [f Hf]%Hlabeled. unfold Metric.callGetLabeledMetric. rewrite Hf.
    by eexists.
Qed.

(** X8. The groups have fixed shapes: every entry of [StandardMetrics] has
    the scalar pair; no entry of [AdditionalMetrics], [RateMetrics] or
    [NodeAutoscalingMetrics] has any predicate or extractor; and every
    entry of [LabeledMetrics] has no scalar pair. *)
Theorem registry_group_shapes :
  Forall
    (λ m, is_Some (Metric.HasValue m) ∧ is_Some (Metric.GetValue m)
          ∧ Metric.HasLabeledMetric m = None
          ∧ Metric.GetLabeledMetric m = None)
    StandardMetrics
  ∧ Forall
      (λ m, Metric.HasValue m = None ∧ Metric.GetValue m = None
            ∧ Metric.HasLabeledMetric m = None
            ∧ Metric.GetLabeledMetric m = None)
      (AdditionalMetrics ++ RateMetrics ++ NodeAutoscalingMetrics)
  ∧ Forall
      (λ m, Metric.HasValue m = None ∧ Metric.GetValue m = None)
      LabeledMetrics.
Proof.
  split; [| split];
    repeat (apply Forall_cons_2 || apply Forall_nil_2);
    repeat split; by eexists.
Qed.

Lemma scalar_value_matches_all :
  Forall
    (λ m, ∀ now c stat v,
       Metric.callGetValue m now c stat = Some v →
       MetricValue.MetricType v = Metric.Type_ m
       ∧ MetricValue.ValueType v
         = MetricDescriptor.ValueType (Metric.MetricDescriptor m)
       ∧ MetricValue.ValueType v = ValueInt64
       ∧ MetricValue.FloatValue v = 0)
    AllMetrics.
Proof.
  repeat (apply Forall_cons_2 || apply Forall_nil_2);
    intros now [spec []] stat v Hcall; cbn in Hcall;
    try discriminate Hcall; injection Hcall as <-; by repeat split.
Qed.

(** X9. Whatever a scalar extractor of [AllMetrics] returns, on a node or
    not, carries the kind and the value type that the descriptor of the
    metric declares; the value type is [ValueInt64] and the float field
    is left at zero. *)
Theorem scalar_value_matches_descriptor (m : Metric.t) (now : time.Time)
    (c : ContainerInfo.t) (stat : ContainerStats.t) (v : MetricValue.t) :
  m ∈ AllMetrics →
  Metric.callGetValue m now c stat = Some v →
  MetricValue.MetricType v = Metric.Type_ m
  ∧ MetricValue.ValueType v
    = MetricDescriptor.ValueType (Metric.MetricDescriptor m)
  ∧ MetricValue.ValueType v = ValueInt64
  ∧ MetricValue.FloatValue v = 0.
Proof.
  intros Hin. pose proof scalar_value_matches_all as Hall.
  rewrite Forall_forall in Hall. by apply Hall.
Qed.

Lemma labeled_value_matches_all :
  Forall
    (λ m, ∀ now c stat result,
       Metric.callGetLabeledMetric m now c stat = Some result →
       Forall
         (λ lm,
            LabeledMetric.Name lm = Metric.Name m
            ∧ MetricValue.ValueType (LabeledMetric.MetricValue lm)
              = MetricDescriptor.ValueType (Metric.MetricDescriptor m)
            ∧ MetricValue.FloatValue (LabeledMetric.MetricValue lm) = 0
            ∧ MetricValue.MetricType (LabeledMetric.MetricValue lm)
              = MetricGauge)
         result)
    AllMetrics.
Proof.
  repeat (apply Forall_cons_2 || apply Forall_nil_2);
    intros now c stat result Hcall; cbn in Hcall;
    try discriminate Hcall; injection Hcall as <-;
    rewrite ?foldl_snoc, ?foldl_snoc_if; simpl;
    apply Forall_fmap, Forall_forall; intros record _; by repeat split.
Qed.

(** X10. Every result that a labeled extractor of [AllMetrics] returns
    carries the name of its metric and the value type that the descriptor
    declares, with a value of kind gauge and the float field at zero. For
    every labeled metric other than the two disk metrics, gauge is also
    the kind of the descriptor. *)
Theorem labeled_value_matches_descriptor (m : Metric.t) (now : time.Time)
    (c : ContainerInfo.t) (stat : ContainerStats.t)
    (result : list LabeledMetric.t) :
  m ∈ AllMetrics →
  Metric.callGetLabeledMetric m now c stat = Some result →
  Forall
    (λ lm,
       LabeledMetric.Name lm = Metric.Name m
       ∧ MetricValue.ValueType (LabeledMetric.MetricValue lm)
         = MetricDescriptor.ValueType (Metric.MetricDescriptor m)
       ∧ MetricValue.FloatValue (LabeledMetric.MetricValue lm) = 0
       ∧ MetricValue.MetricType (LabeledMetric.MetricValue lm) = MetricGauge)
    result
  ∧ (Metric.Name m ≠ "disk/io_read_bytes" →
     Metric.Name m ≠ "disk/io_write_bytes" →
     Metric.Type_ m = MetricGauge).
Proof.
  intros Hin Hcall. split.
  - pose proof labeled_value_matches_all as Hall.
    rewrite Forall_forall in Hall. by eapply Hall.
  - revert Hcall.
    assert (Forall
              (λ m, Metric.callGetLabeledMetric m now c stat = Some result →
                    Metric.Name m ≠ "disk/io_read_bytes" →
                    Metric.Name m ≠ "disk/io_write_bytes" →
                    Metric.Type_ m = MetricGauge) AllMetrics) as Hall.
    { repeat (apply Forall_cons_2 || apply Forall_nil_2);
        intros Hcall Hread Hwrite;
        first [ reflexivity | discriminate Hcall
              | by destruct Hread | by destruct Hwrite ]. }
    rewrite Forall_forall in Hall. by apply Hall.
Qed.

Lemma entity_read_all :
  Forall
    (λ m, ∀ now c1 c2 stat,
       Metric.callGetLabeledMetric m now c1 stat
       = Metric.callGetLabeledMetric m now c2 stat
       ∧ (Metric.Name m ≠ "uptime" →
          metrics.IsNode c1 = metrics.IsNode c2 →
          Metric.callGetValue m now c1 stat = Metric.callGetValue m now c2 stat))
    AllMetrics.
Proof.
  repeat (apply Forall_cons_2 || apply Forall_nil_2);
    intros now [spec1 node1] [spec2 node2] stat;
    (split; [reflexivity |]); intros Hname Hnode; cbn in Hnode;
    first [ by destruct Hname | by subst node2 ].
Qed.

(** X11. The extractors read the entity only through [IsNode]: the
    labeled extractors of [AllMetrics] return the same results for any two
    entities, so a node has its labeled metrics extracted like any other
    entity, and the scalar extractors other than the one of "uptime"
    return the same value for two entities that are both nodes or both
    not, whatever their capability flags and creation times. *)
Theorem entity_read_through_IsNode (m : Metric.t) (now : time.Time)
    (c1 c2 : ContainerInfo.t) (stat : ContainerStats.t) :
  m ∈ AllMetrics → Metric.Name m ≠ "uptime" →
  metrics.IsNode c1 = metrics.IsNode c2 →
  Metric.callGetValue m now c1 stat = Metric.callGetValue m now c2 stat
  ∧ ∀ c3, Metric.callGetLabeledMetric m now c1 stat
          = Metric.callGetLabeledMetric m now c3 stat.
Proof.
  intros Hin Hname Hnode. pose proof entity_read_all as Hall.
  rewrite Forall_forall in Hall. split.
  - by apply (Hall m Hin now c1 c2 stat).
  - intros c3. by apply (Hall m Hin now c1 c3 stat).
Qed.

End RegisteredMetrics.

Section RegisteredMetricsExamples.
Existing Instance exampleLabels.

Lemma extractor_pairs_witness :
  MetricFilesystemInodes ∈ AllMetrics
  ∧ is_Some (Metric.HasLabeledMetric MetricFilesystemInodes)
  ∧ is_Some (Metric.callGetLabeledMetric MetricFilesystemInodes 5000000
               exampleContainer exampleStats).
Proof.
  assert (MetricFilesystemInodes ∈ AllMetrics) as Hin by repeat constructor.
  assert (is_Some (Metric.HasLabeledMetric MetricFilesystemInodes)) as Hhas
    by (by eexists).
  split; [exact Hin |]. split; [exact Hhas |].
  destruct (extractor_pairs MetricFilesystemInodes 5000000 exampleContainer
              exampleStats Hin) as (_ & _ & _ & _ & Hcall).
  exact (Hcall Hhas).
Defined.

Lemma scalar_value_matches_descriptor_witness :
  MetricMemoryUsage ∈ AllMetrics
  ∧ ∃ v, Metric.callGetValue MetricMemoryUsage 5000000 exampleNode
           exampleStats = Some v
         ∧ MetricValue.MetricType v = MetricGauge.
Proof.
  assert (MetricMemoryUsage ∈ AllMetrics) as Hin by repeat constructor.
  split; [exact Hin |]. eexists. split; [reflexivity |].
  exact (proj1 (scalar_value_matches_descriptor MetricMemoryUsage 5000000
                  exampleNode exampleStats _ Hin eq_refl)).
Defined.

Lemma labeled_value_matches_descriptor_witness :
  MetricFilesystemUsage ∈ AllMetrics
  ∧ ∃ result, Metric.callGetLabeledMetric MetricFilesystemUsage 5000000
                exampleContainer exampleStats = Some result
              ∧ Forall (λ lm, LabeledMetric.Name lm = "filesystem/usage") result
              ∧ Metric.Type_ MetricFilesystemUsage = MetricGauge.
Proof.
  assert (MetricFilesystemUsage ∈ AllMetrics) as Hin by repeat constructor.
  split; [exact Hin |]. eexists. split; [reflexivity |].
  destruct (labeled_value_matches_descriptor MetricFilesystemUsage 5000000
              exampleContainer exampleStats _ Hin eq_refl) as [Hall Hkind].
  split.
  - eapply Forall_impl; [exact Hall |]. by intros lm (Hname & _).
  - apply Hkind; discriminate.
Defined.

Lemma entity_read_through_IsNode_witness :
  MetricDiskIORead ∈ AllMetrics
  ∧ Metric.Name MetricDiskIORead ≠ "uptime"
  ∧ metrics.IsNode exampleNode = metrics.IsNode exampleNode
  ∧ Metric.callGetLabeledMetric MetricDiskIORead 5000000 exampleNode
      exampleStats
    = Metric.callGetLabeledMetric MetricDiskIORead 5000000 exampleContainer
        exampleStats.
Proof.
  assert (MetricDiskIORead ∈ AllMetrics) as Hin by repeat constructor.
  assert (Metric.Name MetricDiskIORead ≠ "uptime") as Hname by discriminate.
  split; [exact Hin |]. split; [exact Hname |]. split; [reflexivity |].
  exact (proj2 (entity_read_through_IsNode MetricDiskIORead 5000000
                  exampleNode exampleNode exampleStats Hin Hname eq_refl)
           exampleContainer).
Defined.

End RegisteredMetricsExamples.

(** ** Labeled extraction, record by record *)

Section LabeledRecords.
Context {labels : LabelDeclarations}.

(** X12. The results of "filesystem/usage" and of "filesystem/limit" stand
    in the order of the filesystem records of the snapshot: the result at
    a position carries the usage, respectively the limit, of the record at
    that position, converted to [int64], under the single label keyed by
    the resource-id key, whose value is the device name of the record as
    it is, the empty name included. *)
Theorem filesystem_usage_limit_at (now : time.Time) (c : ContainerInfo.t)
    (stat : ContainerStats.t) (i : nat) (fs : FsStats.t) :
  ContainerStats.Filesystem stat !! i = Some fs →
  ∃ usages limits usage limit,
    Metric.callGetLabeledMetric MetricFilesystemUsage now c stat = Some usages
    ∧ usages !! i = Some usage
    ∧ Metric.callGetLabeledMetric MetricFilesystemLimit now c stat = Some limits
    ∧ limits !! i = Some limit
    ∧ LabeledMetric.Labels usage
      = {[ LabelDescriptor.Key LabelResourceID := FsStats.Device fs ]}
    ∧ LabeledMetric.Labels limit = LabeledMetric.Labels usage
    ∧ MetricValue.IntValue (LabeledMetric.MetricValue usage)
      = Go.int64 (FsStats.Usage fs)
    ∧ MetricValue.IntValue (LabeledMetric.MetricValue limit)
      = Go.int64 (FsStats.Limit fs).
Proof.
  intros Hfs. do 4 eexists.
  split; [reflexivity |]. split; [| split; [reflexivity | split]].
  - cbv zeta. rewrite foldl_snoc. simpl.
    rewrite list_lookup_fmap, Hfs. reflexivity.
  - cbv zeta. rewrite foldl_snoc. simpl.
    rewrite list_lookup_fmap, Hfs. reflexivity.
  - by repeat split.
Qed.

(** X13. The results of "filesystem/inodes" and of
    "filesystem/inodes_free" stand in the order of the filesystem records
    that report inode support: the two sequences have the same length,
    and at a position they carry the inode count and the free inode count
    of the same record, under the same single label, the device name of
    that record. *)
Theorem filesystem_inodes_at (now : time.Time) (c : ContainerInfo.t)
    (stat : ContainerStats.t) (k : nat) (fs : FsStats.t) :
  filter (λ fs, FsStats.HasInodes fs) (ContainerStats.Filesystem stat) !! k
  = Some fs →
  ∃ totals frees total free,
    Metric.callGetLabeledMetric MetricFilesystemInodes now c stat = Some totals
    ∧ totals !! k = Some total
    ∧ Metric.callGetLabeledMetric MetricFilesystemInodesFree now c stat
      = Some frees
    ∧ frees !! k = Some free
    ∧ length totals = length frees
    ∧ LabeledMetric.Labels total
      = {[ LabelDescriptor.Key LabelResourceID := FsStats.Device fs ]}
    ∧ LabeledMetric.Labels free = LabeledMetric.Labels total
    ∧ MetricValue.IntValue (LabeledMetric.MetricValue total)
      = Go.int64 (FsStats.Inodes fs)
    ∧ MetricValue.IntValue (LabeledMetric.MetricValue free)
      = Go.int64 (FsStats.InodesFree fs).
Proof.
  intros Hfs. do 4 eexists.
  split; [reflexivity |]. split; [| split; [reflexivity | split]].
  - cbv zeta. rewrite foldl_snoc_if. simpl.
    rewrite list_lookup_fmap, Hfs. reflexivity.
  - cbv zeta. rewrite foldl_snoc_if. simpl.
    rewrite list_lookup_fmap, Hfs. reflexivity.
  - split; [| by repeat split].
    rewrite !foldl_snoc_if. simpl. by rewrite !length_fmap.
Qed.

(** X14. Every result of the two inode metrics comes from a filesystem
    record of the snapshot that reports inode support: a record without
    it contributes no result. *)
Theorem filesystem_inodes_only_supported (now : time.Time)
    (c : ContainerInfo.t) (stat : ContainerStats.t) :
  Forall
    (λ m,
       ∃ result,
         Metric.callGetLabeledMetric m now c stat = Some result
         ∧ Forall
             (λ lm,
                ∃ fs, fs ∈ ContainerStats.Filesystem stat
                      ∧ FsStats.HasInodes fs = true
                      ∧ LabeledMetric.Labels lm
                        = {[ LabelDescriptor.Key LabelResourceID
                             := FsStats.Device fs ]})
             result)
    [ MetricFilesystemInodes; MetricFilesystemInodesFree ].
Proof.
  repeat (apply Forall_cons_2 || apply Forall_nil_2);
    (eexists; split; [reflexivity |]);
    cbv zeta; rewrite foldl_snoc_if; simpl;
    apply Forall_fmap, Forall_forall; intros fs [Hsupport Hin]%list_elem_of_filter;
    exists fs; (split; [exact Hin |]); (split; [| reflexivity]);
    by destruct (FsStats.HasInodes fs).
Qed.

(** X15. The results of "disk/io_read_bytes" and of "disk/io_write_bytes"
    pair up: the two sequences have the length of the partition records,
    and at every position the two results carry the same label set, which
    holds the resource-id key alone. For a record with a device name that
    is not empty the label is that name, without recourse to the major
    and minor numbers. *)
Theorem disk_io_device_label (now : time.Time) (info : ContainerInfo.t)
    (stat : ContainerStats.t) (i : nat) (partition : PerDiskStats.t) :
  DiskIoStats.IoServiceBytes (ContainerStats.DiskIo stat) !! i = Some partition →
  ∃ reads writes read write,
    Metric.callGetLabeledMetric MetricDiskIORead now info stat = Some reads
    ∧ reads !! i = Some read
    ∧ Metric.callGetLabeledMetric MetricDiskIOWrite now info stat = Some writes
    ∧ writes !! i = Some write
    ∧ length reads = length writes
    ∧ LabeledMetric.Labels read = LabeledMetric.Labels write
    ∧ dom (LabeledMetric.Labels read) = {[ LabelDescriptor.Key LabelResourceID ]}
    ∧ (PerDiskStats.Device partition ≠ "" →
       LabeledMetric.Labels read !! LabelDescriptor.Key LabelResourceID
       = Some (PerDiskStats.Device partition)).
Proof.
  intros Hpartition.
  destruct (disk_io_lookup MetricDiskIORead "Read" now info stat i partition)
    as (reads & read & Hreads & Hrlen & Hread & _ & Hrl & _); [by left | done |].
  destruct (disk_io_lookup MetricDiskIOWrite "Write" now info stat i partition)
    as (writes & write & Hwrites & Hwlen & Hwrite & _ & Hwl & _);
    [by right | done |].
  exists reads, writes, read, write.
  repeat (split; [done |]).
  split; [by rewrite Hrlen, Hwlen |]. split; [by rewrite Hrl, Hwl |].
  rewrite Hrl. split; [apply dom_singleton_L |].
  intros Hdevice. apply String.eqb_neq in Hdevice. rewrite Hdevice.
  apply lookup_singleton_eq.
Qed.

(** X16. For the three accelerator metrics the predicate and the extractor
    agree: [HasLabeledMetric] is false exactly when the snapshot has no
    accelerator, and it is true exactly when [GetLabeledMetric] returns a
    sequence that is not empty, whatever the capability flags. *)
Theorem accelerator_has_iff_results (now : time.Time) (info : ContainerInfo.t)
    (spec : ContainerSpec.t) (stat : ContainerStats.t) :
  Forall
    (λ m,
       ∃ has result,
         Metric.HasLabeledMetric m = Some has
         ∧ Metric.callGetLabeledMetric m now info stat = Some result
         ∧ (has spec stat = false ↔ ContainerStats.Accelerators stat = [])
         ∧ (has spec stat = true ↔ result ≠ [])
         ∧ length result = length (ContainerStats.Accelerators stat))
    [ MetricAcceleratorMemoryTotal; MetricAcceleratorMemoryUsed;
      MetricAcceleratorDutyCycle ].
Proof.
  repeat (apply Forall_cons_2 || apply Forall_nil_2);
    (do 2 eexists; split; [reflexivity |]; split; [reflexivity |]);
    cbv zeta; rewrite foldl_snoc; simpl; rewrite length_fmap;
    destruct (ContainerStats.Accelerators stat); simpl; by repeat split.
Qed.

(** The label set of an accelerator record: the device id is always
    there; the model and the make are there unless a later key of the
    literal is equal to theirs; and the keys of the set are the three
    label keys. *)
Lemma acceleratorLabelSet_lookup (ac : AcceleratorStats.t) :
  acceleratorLabelSet ac !! LabelDescriptor.Key LabelAcceleratorID
  = Some (AcceleratorStats.ID ac)
  ∧ (LabelDescriptor.Key LabelAcceleratorModel
     ≠ LabelDescriptor.Key LabelAcceleratorID →
     acceleratorLabelSet ac !! LabelDescriptor.Key LabelAcceleratorModel
     = Some (AcceleratorStats.Model ac))
  ∧ (LabelDescriptor.Key LabelAcceleratorMake
     ≠ LabelDescriptor.Key LabelAcceleratorModel →
     LabelDescriptor.Key LabelAcceleratorMake
     ≠ LabelDescriptor.Key LabelAcceleratorID →
     acceleratorLabelSet ac !! LabelDescriptor.Key LabelAcceleratorMake
     = Some (AcceleratorStats.Make ac))
  ∧ dom (acceleratorLabelSet ac)
    = {[ LabelDescriptor.Key LabelAcceleratorMake;
         LabelDescriptor.Key LabelAcceleratorModel;
         LabelDescriptor.Key LabelAcceleratorID ]}.
Proof.
  unfold acceleratorLabelSet. split; [apply lookup_insert_eq |].
  split; [| split].
  - intros Hne. rewrite lookup_insert_ne by done. apply lookup_insert_eq.
  - intros Hne1 Hne2. rewrite !lookup_insert_ne by done. apply lookup_insert_eq.
  - rewrite !dom_insert_L, dom_empty_L. apply set_eq. intros key.
    rewrite !elem_of_union, !elem_of_singleton, elem_of_empty. tauto.
Qed.

(** X17. The results of the three accelerator metrics stand in the order
    of the accelerator records: the result at a position carries the
    total memory, the used memory, respectively the duty cycle of the
    record at that position, converted to [int64]. Its label set has the
    three accelerator keys; the device id is always found under its key,
    and the model and the make are found under theirs when the three keys
    differ. *)
Theorem accelerator_labels_at (now : time.Time) (info : ContainerInfo.t)
    (stat : ContainerStats.t) (i : nat) (ac : AcceleratorStats.t) :
  ContainerStats.Accelerators stat !! i = Some ac →
  Forall
    (λ '(m, field),
       ∃ result lm,
         Metric.callGetLabeledMetric m now info stat = Some result
         ∧ result !! i = Some lm
         ∧ MetricValue.IntValue (LabeledMetric.MetricValue lm)
           = Go.int64 (field ac)
         ∧ LabeledMetric.Labels lm !! LabelDescriptor.Key LabelAcceleratorID
           = Some (AcceleratorStats.ID ac)
         ∧ (LabelDescriptor.Key LabelAcceleratorModel
            ≠ LabelDescriptor.Key LabelAcceleratorID →
            LabeledMetric.Labels lm !! LabelDescriptor.Key LabelAcceleratorModel
            = Some (AcceleratorStats.Model ac))
         ∧ (LabelDescriptor.Key LabelAcceleratorMake
            ≠ LabelDescriptor.Key LabelAcceleratorModel →
            LabelDescriptor.Key LabelAcceleratorMake
            ≠ LabelDescriptor.Key LabelAcceleratorID →
            LabeledMetric.Labels lm !! LabelDescriptor.Key LabelAcceleratorMake
            = Some (AcceleratorStats.Make ac))
         ∧ dom (LabeledMetric.Labels lm)
           = {[ LabelDescriptor.Key LabelAcceleratorMake;
                LabelDescriptor.Key LabelAcceleratorModel;
                LabelDescriptor.Key LabelAcceleratorID ]})
    [ (MetricAcceleratorMemoryTotal, AcceleratorStats.MemoryTotal);
      (MetricAcceleratorMemoryUsed, AcceleratorStats.MemoryUsed);
      (MetricAcceleratorDutyCycle, AcceleratorStats.DutyCycle) ].
Proof.
  intros Hac.
  repeat (apply Forall_cons_2 || apply Forall_nil_2);
    (do 2 eexists; split; [reflexivity |]);
    (split;
     [cbv zeta; rewrite foldl_snoc; simpl;
      rewrite list_lookup_fmap, Hac; reflexivity |]);
    simpl; (split; [reflexivity |]); apply acceleratorLabelSet_lookup.
Qed.

End LabeledRecords.

Section LabeledRecordsExamples.
Existing Instance exampleLabels.

Lemma filesystem_usage_limit_at_witness :
  ContainerStats.Filesystem exampleStats !! 1%nat
  = Some (FsStats.mk "tmpfs" 500 100 false 0 0)
  ∧ ∃ usages limits usage limit,
      Metric.callGetLabeledMetric MetricFilesystemUsage 5000000
        exampleContainer exampleStats = Some usages
      ∧ usages !! 1%nat = Some usage
      ∧ Metric.callGetLabeledMetric MetricFilesystemLimit 5000000
          exampleContainer exampleStats = Some limits
      ∧ limits !! 1%nat = Some limit
      ∧ LabeledMetric.Labels usage = {[ "resource_id" := "tmpfs" ]}
      ∧ MetricValue.IntValue (LabeledMetric.MetricValue usage) = 100
      ∧ MetricValue.IntValue (LabeledMetric.MetricValue limit) = 500.
Proof.
  split; [reflexivity |].
  destruct (filesystem_usage_limit_at 5000000 exampleContainer exampleStats
              1%nat _ eq_refl)
    as (usages & limits & usage & limit & Husages & Husage & Hlimits & Hlimit
        & Hlabels & _ & Hu & Hl).
  exists usages, limits, usage, limit.
  do 4 (split; [assumption |]).
  split; [exact Hlabels |]. split; [exact Hu | exact Hl].
Defined.

Lemma filesystem_inodes_at_witness :
  filter (λ fs, FsStats.HasInodes fs) (ContainerStats.Filesystem exampleStats)
    !! 1%nat
  = Some (FsStats.mk "/dev/sdb1" 2000 800 true 128 100)
  ∧ ∃ totals frees total free,
      Metric.callGetLabeledMetric MetricFilesystemInodes 5000000
        exampleContainer exampleStats = Some totals
      ∧ totals !! 1%nat = Some total
      ∧ Metric.callGetLabeledMetric MetricFilesystemInodesFree 5000000
          exampleContainer exampleStats = Some frees
      ∧ frees !! 1%nat = Some free
      ∧ LabeledMetric.Labels total = {[ "resource_id" := "/dev/sdb1" ]}
      ∧ MetricValue.IntValue (LabeledMetric.MetricValue total) = 128
      ∧ MetricValue.IntValue (LabeledMetric.MetricValue free) = 100.
Proof.
  split; [reflexivity |].
  destruct (filesystem_inodes_at 5000000 exampleContainer exampleStats
              1%nat _ eq_refl)
    as (totals & frees & total & free & Htotals & Htotal & Hfrees & Hfree
        & _ & Hlabels & _ & Ht & Hf).
  exists totals, frees, total, free.
  do 4 (split; [assumption |]).
  split; [exact Hlabels |]. split; [exact Ht | exact Hf].
Defined.

Lemma disk_io_device_label_witness :
  DiskIoStats.IoServiceBytes (ContainerStats.DiskIo exampleDeviceStats) !! 0%nat
  = Some exampleNamedPartition
  ∧ PerDiskStats.Device exampleNamedPartition ≠ ""
  ∧ ∃ reads writes read write,
      Metric.callGetLabeledMetric MetricDiskIORead 5000000 exampleContainer
        exampleDeviceStats = Some reads
      ∧ reads !! 0%nat = Some read
      ∧ Metric.callGetLabeledMetric MetricDiskIOWrite 5000000 exampleContainer
          exampleDeviceStats = Some writes
      ∧ writes !! 0%nat = Some write
      ∧ LabeledMetric.Labels read = LabeledMetric.Labels write
      ∧ LabeledMetric.Labels read !! "resource_id" = Some "/dev/sda".
Proof.
  split; [reflexivity |].
  assert (PerDiskStats.Device exampleNamedPartition ≠ "") as Hdevice
    by discriminate.
  split; [exact Hdevice |].
  destruct (disk_io_device_label 5000000 exampleContainer exampleDeviceStats
              0%nat exampleNamedPartition eq_refl)
    as (reads & writes & read & write & Hreads & Hread & Hwrites & Hwrite
        & _ & Hsame & _ & Hlabel).
  exists reads, writes, read, write.
  do 5 (split; [assumption |]). exact (Hlabel Hdevice).
Defined.

Lemma accelerator_labels_at_witness :
  ContainerStats.Accelerators exampleDeviceStats !! 0%nat
  = Some exampleAccelerator
  ∧ ∃ result lm,
      Metric.callGetLabeledMetric MetricAcceleratorMemoryUsed 5000000
        exampleContainer exampleDeviceStats = Some result
      ∧ result !! 0%nat = Some lm
      ∧ MetricValue.IntValue (LabeledMetric.MetricValue lm) = 4000
      ∧ LabeledMetric.Labels lm !! "accelerator_id" = Some "GPU-0"
      ∧ LabeledMetric.Labels lm !! "model" = Some "tesla-k80"
      ∧ LabeledMetric.Labels lm !! "make" = Some "nvidia".
Proof.
  split; [reflexivity |].
  pose proof (accelerator_labels_at 5000000 exampleContainer exampleDeviceStats
                0%nat exampleAccelerator eq_refl) as Hall.
  destruct (Forall_lookup_1 _ _ 1%nat _ Hall eq_refl)
    as (result & lm & Hcall & Hlm & Hvalue & Hid & Hmodel & Hmake & _).
  exists result, lm.
  do 2 (split; [assumption |]).
  split; [exact Hvalue |]. split; [exact Hid |].
  split; [apply Hmodel; discriminate |]. apply Hmake; discriminate.
Defined.

End LabeledRecordsExamples.

(** ** The lookups over the registries *)

Section Lookups.
Context {labels : LabelDeclarations}.

Lemma IsNodeAutoscalingMetric_name (name : string) :
  IsNodeAutoscalingMetric name = true
  ↔ name ∈ Metric.Name <$> NodeAutoscalingMetrics.
Proof.
  unfold IsNodeAutoscalingMetric. rewrite existsb_exists, list_elem_of_fmap.
  split.
  - intros (m & Hin%list_elem_of_In & Heq%String.eqb_eq). by exists m.
  - intros (m & -> & Hin). exists m. split; [by apply list_elem_of_In |].
    apply String.eqb_refl.
Qed.

Lemma AllMetrics_groups (m : Metric.t) :
  m ∈ AllMetrics ↔
  m ∈ StandardMetrics ++ AdditionalMetrics ++ RateMetrics ++ LabeledMetrics
  ∨ m ∈ NodeAutoscalingMetrics.
Proof.
  unfold AllMetrics, append. rewrite !elem_of_app. tauto.
Qed.

(** X18. Among the registered metrics, [IsNodeAutoscalingMetric] holds of
    the name of an entry exactly when the entry is one of
    [NodeAutoscalingMetrics]: it is false on the name of every entry of
    the four other groups. For any name at all, it holds exactly when the
    name is the name of an entry of [NodeAutoscalingMetrics]. *)
Theorem IsNodeAutoscalingMetric_registered (m : Metric.t) (name : string) :
  m ∈ AllMetrics →
  (IsNodeAutoscalingMetric (Metric.Name m) = true
   ↔ m ∈ NodeAutoscalingMetrics)
  ∧ (m ∈ StandardMetrics ++ AdditionalMetrics ++ RateMetrics ++ LabeledMetrics →
     IsNodeAutoscalingMetric (Metric.Name m) = false)
  ∧ (IsNodeAutoscalingMetric name = true
     ↔ name ∈ Metric.Name <$> NodeAutoscalingMetrics).
Proof.
  intros Hin.
  assert (Forall (λ m, IsNodeAutoscalingMetric (Metric.Name m) = false)
            (StandardMetrics ++ AdditionalMetrics ++ RateMetrics
               ++ LabeledMetrics)) as Hothers
    by (repeat (apply Forall_cons_2 || apply Forall_nil_2); reflexivity).
  rewrite Forall_forall in Hothers.
  split; [| split; [by apply Hothers | apply IsNodeAutoscalingMetric_name]].
  split.
  - intros Htrue. apply AllMetrics_groups in Hin as [Hother | Hnode]; [| done].
    rewrite (Hothers m Hother) in Htrue. discriminate Htrue.
  - intros Hnode. apply IsNodeAutoscalingMetric_name.
    by apply list_elem_of_fmap_2.
Qed.

(** X19. The rate mapping follows the names: a name that it maps is the
    name of a registered metric of kind cumulative that has an extractor,
    and the rate metric it gives has that name followed by "_rate", is of
    kind gauge, and has no extractor of its own. *)
Theorem RateMetricsMapping_names (name : string) (rate : Metric.t) :
  RateMetricsMapping !! name = Some rate →
  Metric.Name rate = name +:+ "_rate"
  ∧ Metric.Type_ rate = MetricGauge
  ∧ Metric.GetValue rate = None ∧ Metric.GetLabeledMetric rate = None
  ∧ ∃ raw, raw ∈ AllMetrics ∧ Metric.Name raw = name
           ∧ Metric.Type_ raw = MetricCumulative
           ∧ (is_Some (Metric.GetValue raw)
              ∨ is_Some (Metric.GetLabeledMetric raw)).
Proof.
  intros [[-> ->] | [[-> ->] | [[-> ->] | [[-> ->] | [-> ->]]]]]
    %RateMetricsMapping_entries;
    do 4 (split; [reflexivity |]).
  - exists MetricCpuUsage. split; [repeat constructor |].
    do 2 (split; [reflexivity |]). left. by eexists.
  - exists MetricNetworkRx. split; [repeat constructor |].
    do 2 (split; [reflexivity |]). left. by eexists.
  - exists MetricNetworkTx. split; [repeat constructor |].
    do 2 (split; [reflexivity |]). left. by eexists.
  - exists MetricDiskIORead. split; [repeat constructor |].
    do 2 (split; [reflexivity |]). right. by eexists.
  - exists MetricDiskIOWrite. split; [repeat constructor |].
    do 2 (split; [reflexivity |]). right. by eexists.
Qed.

(** X20. The rate mapping reaches exactly [RateMetrics]: a metric is an
    entry of [RateMetrics] exactly when some name is mapped to it. *)
Theorem RateMetricsMapping_onto (rate : Metric.t) :
  rate ∈ RateMetrics ↔ ∃ name, RateMetricsMapping !! name = Some rate.
Proof.
  split.
  - unfold RateMetrics. rewrite !elem_of_cons, elem_of_nil.
    intros [-> | [-> | [-> | [-> | [-> | []]]]]].
    + exists "cpu/usage". apply RateMetricsMapping_entries. tauto.
    + exists "network/rx". apply RateMetricsMapping_entries. tauto.
    + exists "network/tx". apply RateMetricsMapping_entries. tauto.
    + exists "disk/io_read_bytes". apply RateMetricsMapping_entries. tauto.
    + exists "disk/io_write_bytes". apply RateMetricsMapping_entries. tauto.
  - intros [name [[_ ->] | [[_ ->] | [[_ ->] | [[_ ->] | [_ ->]]]]]
              %RateMetricsMapping_entries];
      repeat constructor.
Qed.

Lemma family_prefix_declared :
  Forall
    (λ entry,
       entry.1 ∈ [ MetricFamilyCpu; MetricFamilyFilesystem; MetricFamilyMemory;
                   MetricFamilyNetwork ]
       ∧ Forall
           (λ metric,
              String.prefix (entry.1 +:+ "/") (Metric.Name metric) = true)
           entry.2)
    MetricFamilies.
Proof.
  repeat (apply Forall_cons_2 || apply Forall_nil_2);
    (split; [repeat constructor |]);
    repeat (apply Forall_cons_2 || apply Forall_nil_2); reflexivity.
Qed.

(** X21. In any order of the scan, [MetricFamilyForName] returns one of
    the five families, and when it returns a family other than
    [MetricFamilyGeneral] the name begins with that family and a slash. *)
Theorem MetricFamilyForName_prefix
    (order : list (MetricFamily * list Metric.t)) (metricName : string) :
  rangeOrder order →
  MetricFamilyForName order metricName
  ∈ [ MetricFamilyCpu; MetricFamilyFilesystem; MetricFamilyMemory;
      MetricFamilyNetwork; MetricFamilyGeneral ]
  ∧ (MetricFamilyForName order metricName ≠ MetricFamilyGeneral →
     String.prefix (MetricFamilyForName order metricName +:+ "/") metricName
     = true).
Proof.
  intros Horder.
  destruct (MetricFamilyForName_cases order metricName)
    as [(metrics & metric & Hentry & Hmetric & Hname) | [Hgeneral _]].
  - apply (rangeOrder_elem _ _ Horder) in Hentry.
    pose proof family_prefix_declared as Hall. rewrite Forall_forall in Hall.
    destruct (Hall _ Hentry) as [Hfamily Hprefix]. simpl in Hfamily, Hprefix.
    rewrite Forall_forall in Hprefix. split.
    + rewrite !elem_of_cons in Hfamily. rewrite !elem_of_cons. tauto.
    + intros _. rewrite <- Hname at 2. by apply Hprefix.
  - rewrite Hgeneral. split; [repeat constructor | done].
Qed.

(** X22. Of the registered metrics, the ones without a family are "uptime"
    and the disk and accelerator metrics: in any order of the scan, the
    name of an entry of [AllMetrics] resolves to [MetricFamilyGeneral]
    exactly when it is "uptime" or begins with "disk/" or with
    "accelerator/". *)
Theorem general_family_members
    (order : list (MetricFamily * list Metric.t)) (m : Metric.t) :
  rangeOrder order → m ∈ AllMetrics →
  MetricFamilyForName order (Metric.Name m) = MetricFamilyGeneral
  ↔ Metric.Name m = "uptime"
    ∨ String.prefix "disk/" (Metric.Name m) = true
    ∨ String.prefix "accelerator/" (Metric.Name m) = true.
Proof.
  intros Horder Hin.
  rewrite (MetricFamilyForName_order order MetricFamilies (Metric.Name m) Horder)
    by (unfold rangeOrder; reflexivity).
  revert m Hin. apply Forall_forall.
  repeat (apply Forall_cons_2 || apply Forall_nil_2);
    first
      [ by split; [intros _; left | reflexivity]
      | by split; [intros _; right; left | reflexivity]
      | by split; [intros _; right; right | reflexivity]
      | split; [discriminate | intros [Hname | [Hdisk | Haccel]]; discriminate] ].
Qed.

(** X23. The per-family lists hold no name twice, within a list or across
    the lists, and every name they hold is the name of an entry of
    [AllMetrics]. *)
Theorem family_lists_registered :
  NoDup (Metric.Name <$> mjoin (snd <$> MetricFamilies))
  ∧ Forall (λ name, name ∈ Metric.Name <$> AllMetrics)
      (Metric.Name <$> mjoin (snd <$> MetricFamilies)).
Proof.
  split; apply (bool_decide_unpack _); vm_compute; exact I.
Qed.

End Lookups.

Section LookupsExamples.
Existing Instance exampleLabels.

Lemma IsNodeAutoscalingMetric_registered_witness :
  MetricNodeCpuCapacity ∈ AllMetrics
  ∧ MetricCpuUsage ∈ AllMetrics
  ∧ IsNodeAutoscalingMetric (Metric.Name MetricNodeCpuCapacity) = true
  ∧ IsNodeAutoscalingMetric (Metric.Name MetricCpuUsage) = false.
Proof.
  assert (MetricNodeCpuCapacity ∈ AllMetrics) as Hnode by repeat constructor.
  assert (MetricCpuUsage ∈ AllMetrics) as Hcpu by repeat constructor.
  split; [exact Hnode |]. split; [exact Hcpu |]. split.
  - apply (IsNodeAutoscalingMetric_registered MetricNodeCpuCapacity "" Hnode).
    repeat constructor.
  - apply (IsNodeAutoscalingMetric_registered MetricCpuUsage "" Hcpu).
    repeat constructor.
Defined.

Lemma RateMetricsMapping_names_witness :
  RateMetricsMapping !! "network/tx" = Some MetricNetworkTxRate
  ∧ Metric.Name MetricNetworkTxRate = "network/tx_rate".
Proof.
  split; [reflexivity |].
  exact (proj1 (RateMetricsMapping_names "network/tx" MetricNetworkTxRate
                  eq_refl)).
Defined.

Lemma MetricFamilyForName_prefix_witness :
  rangeOrder exampleOrder
  ∧ MetricFamilyForName exampleOrder "memory/rss" ≠ MetricFamilyGeneral
  ∧ String.prefix (MetricFamilyForName exampleOrder "memory/rss" +:+ "/")
      "memory/rss" = true.
Proof.
  assert (rangeOrder exampleOrder) as Horder by apply reverse_Permutation.
  assert (MetricFamilyForName exampleOrder "memory/rss" ≠ MetricFamilyGeneral)
    as Hfamily by discriminate.
  split; [exact Horder |]. split; [exact Hfamily |].
  exact (proj2 (MetricFamilyForName_prefix exampleOrder "memory/rss" Horder)
           Hfamily).
Defined.

Lemma general_family_members_witness :
  rangeOrder exampleOrder
  ∧ MetricDiskIORead ∈ AllMetrics
  ∧ MetricFamilyForName exampleOrder (Metric.Name MetricDiskIORead)
    = MetricFamilyGeneral.
Proof.
  assert (rangeOrder exampleOrder) as Horder by apply reverse_Permutation.
  assert (MetricDiskIORead ∈ AllMetrics) as Hin by repeat constructor.
  split; [exact Horder |]. split; [exact Hin |].
  apply (general_family_members exampleOrder MetricDiskIORead Horder Hin).
  right. left. reflexivity.
Defined.

End LookupsExamples.
